(** * Library lending application: models.py, constants.py and server.py

    A shallow embedding of the peewee models and of the Bottle route
    handlers, with the database as explicit state.

    - A table is the list of its rows in rowid order; [Model.get] is the
      first row that satisfies the WHERE clause, [Model.save] the
      [UPDATE ... WHERE id = pk] that rewrites every column of the rows
      with that primary key, [Model.create] the INSERT of a row under the
      rowid sqlite chooses.
    - An integer of sqlite is a signed 64-bit integer: binding a Python
      [int] outside that range as a parameter raises [OverflowError].
      When the largest rowid of a table is the largest integer, sqlite
      draws rowids at random until one is unused: the rowid it ends on is
      an input of the model, and no INSERT fails because the search gives
      up (SQLITE_FULL).
    - [datetime.date] is the proleptic Gregorian ordinal of the day, within
      the range Python accepts; adding a [timedelta] that leaves the range
      raises [OverflowError].
    - [time.time()] is read once per request, in whole seconds since the
      epoch, the unit of the integer column [last_seen].
    - [redirect] and [abort] raise: a handler stops there, keeping the
      writes it has already made; so does an exception no handler
      catches, which bottle answers with status 500.
    - [response.set_cookie] is taken to accept its value: the limit
      bottle puts on the size of a cookie is left out. *)

From Stdlib Require Import ZArith List String Ascii Bool Lia.
From Stdlib Require QArith_base.
From Stdlib Require Import Sorting.Sorted Sorting.Permutation.
From Stdlib Require Import DecimalString.
Import ListNotations.

Local Open Scope string_scope.
Local Open Scope Z_scope.

(** ** constants.py *)

Module constants.

Definition ALLOWED_BORROW_DAYS : Z := 30.

End constants.

(** ** What a call can raise *)

Inductive exn : Type :=
| Redirect (location : string)            (* bottle.redirect *)
| HTTPError (status : Z) (body : string)  (* bottle.abort *)
| OverflowError.             (* a date or an sqlite integer out of range *)

Inductive result (A : Type) : Type :=
| Return (a : A)
| Raise (e : exn).

Arguments Return {A} a.
Arguments Raise {A} e.

(** ** datetime *)

Module datetime.

(** A [date] is its ordinal: day 1 is 0001-01-01, day [MAXORDINAL] is
    9999-12-31. *)
Definition date : Type := Z.

Definition MAXORDINAL : Z := 3652059.

Definition valid (d : date) : Prop := 0 < d <= MAXORDINAL.

(** [timedelta(days=n)] *)
Definition timedelta : Type := Z.

(** [date.__add__]:
    [o = self.toordinal() + other.days]; in range, the date of [o];
    otherwise [OverflowError]. *)
Definition date_add (d : date) (delta : timedelta) : result date :=
  let o := d + delta in
  if (0 <? o) && (o <=? MAXORDINAL) then Return o else Raise OverflowError.

End datetime.

(** ** models.py *)

Module User.

Record t : Type := Build {
  id : Z;
  email : string;              (* CharField(unique=True) *)
  first_name : string;
  last_name : string;
  password : string;
  logged_in : bool;            (* BooleanField(default=False) *)
  last_seen : option Z;        (* SmallIntegerField(null=True) *)
  is_admin : bool              (* BooleanField(default=False) *)
}.

Definition set_logged_in (v : bool) (u : t) : t :=
  Build (id u) (email u) (first_name u) (last_name u) (password u)
        v (last_seen u) (is_admin u).

Definition set_last_seen (v : option Z) (u : t) : t :=
  Build (id u) (email u) (first_name u) (last_name u) (password u)
        (logged_in u) v (is_admin u).

End User.

Module Author.

Record t : Type := Build {
  id : Z;
  name : string                (* CharField(index=True) *)
}.

End Author.

Module Book.

Record t : Type := Build {
  id : Z;
  title : string;                          (* CharField(unique=True) *)
  publication_year : Z;
  average_rating : option QArith_base.Q;              (* FloatField(null=True), only copied *)
  ratings_count : Z;
  image_url : string;
  borrowed_by : option Z;                  (* ForeignKeyField(User, null=True) *)
  borrowed_at : option datetime.date       (* DateField(null=True) *)
}.

Definition set_borrowed (by_ : option Z) (at_ : option datetime.date)
           (b : t) : t :=
  Build (id b) (title b) (publication_year b) (average_rating b)
        (ratings_count b) (image_url b) by_ at_.

(** [Book.return_date]; [today] is [datetime.date.today()]. A date is
    always truthy, so [not self.borrowed_at] is the test for [None]. *)
Definition return_date (today : datetime.date) (self : t)
  : result datetime.date :=
  match borrowed_at self with
  | None => Return today
  | Some d => datetime.date_add d constants.ALLOWED_BORROW_DAYS
  end.

End Book.

(** The table behind [Book.authors = ManyToManyField(Author)]. *)
Module BookAuthorThrough.

Record t : Type := Build {
  id : Z;
  book_id : Z;
  author_id : Z
}.

End BookAuthorThrough.

(** ** The database file and the peewee calls the handlers make *)

Record Database : Type := {
  user : list User.t;
  author : list Author.t;
  book : list Book.t;
  book_author_through : list BookAuthorThrough.t
}.

Definition with_user (us : list User.t) (d : Database) : Database :=
  {| user := us; author := author d; book := book d;
     book_author_through := book_author_through d |}.

Definition with_book (bs : list Book.t) (d : Database) : Database :=
  {| user := user d; author := author d; book := bs;
     book_author_through := book_author_through d |}.

(** [UPDATE table SET every column WHERE id = x.id]: the rows with the
    primary key of [x] become [x]. *)
Definition save_row {A} (key : A -> Z) (x : A) (l : list A) : list A :=
  map (fun r => if key r =? key x then x else r) l.

Module sqlite.

(** The largest and the smallest INTEGER, 2^63 - 1 and - 2^63. *)
Definition MAX_ROWID : Z := 9223372036854775807.

Definition MIN_INTEGER : Z := -9223372036854775808.

(** A Python [int] can be bound as a parameter of a statement. *)
Definition fits_integer (i : Z) : bool :=
  (MIN_INTEGER <=? i) && (i <=? MAX_ROWID).

(** The rowid of a row inserted without one, [ids] being the rowids of
    the table: 1 in an empty table, else one more than the largest; when
    the largest is [MAX_ROWID], the rowid [random_rowid] the random
    search ends on, which is positive and unused. A [random_rowid] that
    cannot be used is replaced by the integer after the largest rowid:
    the model has no INSERT that fails for want of a rowid. *)
Definition new_rowid (random_rowid : Z) (ids : list Z) : Z :=
  match ids with
  | [] => 1
  | i :: ids' =>
      let largest := fold_right Z.max i ids' in
      if largest <? MAX_ROWID then largest + 1
      else if (0 <? random_rowid) && (random_rowid <=? MAX_ROWID)
              && negb (existsb (Z.eqb random_rowid) ids)
           then random_rowid
           else largest + 1
  end.

(** [INSERT]: the table stays in rowid order, the row goes before the
    first row with a larger rowid. *)
Fixpoint insert_row {A} (key : A -> Z) (x : A) (l : list A) : list A :=
  match l with
  | [] => [x]
  | r :: l' => if key x <? key r then x :: l else r :: insert_row key x l'
  end.

End sqlite.

Module peewee.

(** [User.get(...)]: the first row the WHERE clause keeps, [None] for
    [User.DoesNotExist]. *)
Definition User_get (where_ : User.t -> bool) (d : Database)
  : option User.t :=
  find where_ (user d).

(** [user.save()] on a row that came from the table. *)
Definition User_save (u : User.t) (d : Database) : Database :=
  with_user (save_row User.id u (user d)) d.

(** The row of [SELECT ... FROM book WHERE id = ? LIMIT 1]. *)
Definition Book_select (book_id : Z) (d : Database) : option Book.t :=
  find (fun b => Book.id b =? book_id) (book d).

(** [Book.get(id=book_id)]: [book_id] is bound as the parameter of the
    SELECT, which raises [OverflowError] when it is no sqlite integer;
    then the row, [None] for [Book.DoesNotExist]. *)
Definition Book_get (book_id : Z) (d : Database)
  : result (option Book.t) :=
  if sqlite.fits_integer book_id then Return (Book_select book_id d)
  else Raise OverflowError.

(** [book.save()] *)
Definition Book_save (b : Book.t) (d : Database) : Database :=
  with_book (save_row Book.id b (book d)) d.

(** [User.create(first_name=, last_name=, email=, password=)]: the
    INSERT fails on the unique index of [email] ([None] stands for
    [IntegrityError]); the other columns take their defaults. *)
Definition User_create (first_name last_name email password : string)
           (random_rowid : Z) (d : Database) : option User.t * Database :=
  if existsb (fun r => String.eqb (User.email r) email) (user d)
  then (None, d)
  else
    let u := User.Build (sqlite.new_rowid random_rowid
                                          (map User.id (user d)))
                        email first_name last_name password
                        false None false in
    (Some u, with_user (sqlite.insert_row User.id u (user d)) d).

(** A column compared with a Python value that may be [None]:
    [column = ?], or [column IS NULL] which no row of a NOT NULL column
    satisfies. *)
Definition eq_value (column : string) (value : option string) : bool :=
  match value with
  | Some v => String.eqb column v
  | None => false
  end.

End peewee.

(** ** bottle: the request, the response being built, the handler monad *)

(** [MultiDict.get]: the last value stored under the key. *)
Definition multidict_get (key : string) (l : list (string * string))
  : option string :=
  fold_left (fun acc kv => if String.eqb (fst kv) key then Some (snd kv)
                           else acc) l None.

Record Request : Type := {
  time_time : Z;                        (* time.time() *)
  date_today : datetime.date;           (* datetime.date.today() *)
  cookies : list (string * string);     (* the cookies signed with SECRET_KEY *)
  forms : list (string * string);       (* request.forms *)
  random_rowid : Z                      (* where a random search of sqlite ends *)
}.

(** [request.get_cookie(key, secret=SECRET_KEY)] *)
Definition get_cookie (key : string) (rq : Request) : option string :=
  multidict_get key (cookies rq).

(** [request.forms.get(key, default="")] *)
Definition forms_get (key : string) (rq : Request) : string :=
  match multidict_get key (forms rq) with
  | Some v => v
  | None => ""
  end.

Record World : Type := {
  database : Database;
  response_cookies : list (string * string)   (* response.set_cookie calls *)
}.

Definition M (A : Type) : Type := World -> result A * World.

Definition ret {A} (a : A) : M A := fun w => (Return a, w).

Definition raise {A} (e : exn) : M A := fun w => (Raise e, w).

Definition bind {A B} (m : M A) (k : A -> M B) : M B :=
  fun w =>
    match m w with
    | (Return a, w') => k a w'
    | (Raise e, w') => (Raise e, w')
    end.

Declare Scope handler_scope.
Delimit Scope handler_scope with handler.
Notation "x <- m ;; k" := (bind m (fun x => k))
  (at level 100, m at next level, right associativity) : handler_scope.
Notation "m ;; k" := (bind m (fun _ => k))
  (at level 100, right associativity) : handler_scope.
Local Open Scope handler_scope.

Definition query {A} (f : Database -> A) : M A :=
  fun w => (Return (f (database w)), w).

(** A query that can raise. *)
Definition attempt {A} (f : Database -> result A) : M A :=
  fun w => (f (database w), w).

Definition execute (f : Database -> Database) : M unit :=
  fun w => (Return tt, {| database := f (database w);
                          response_cookies := response_cookies w |}).

Definition transact {A} (f : Database -> A * Database) : M A :=
  fun w => let (a, d) := f (database w) in
           (Return a, {| database := d;
                         response_cookies := response_cookies w |}).

Definition set_cookie (name value : string) : M unit :=
  fun w => (Return tt, {| database := database w;
                          response_cookies :=
                            response_cookies w ++ [(name, value)] |}).

Definition redirect {A} (url : string) : M A := raise (Redirect url).

Definition abort {A} (code : Z) (text : string) : M A :=
  raise (HTTPError code text).

(** ** server.py *)

(** The dictionaries the form handlers give back to their template. *)
Module RegisterForm.

Record t : Type := Build {
  email : string;
  password : string;
  first_name : string;
  last_name : string;
  error : string
}.

Definition set_error (msg : string) (f : t) : t :=
  Build (email f) (password f) (first_name f) (last_name f) msg.

End RegisterForm.

Module LoginForm.

Record t : Type := Build {
  email : string;
  password : string;
  error : string
}.

Definition set_error (msg : string) (f : t) : t :=
  Build (email f) (password f) msg.

End LoginForm.

(** What a handler returns to its [@view] template. *)
Inductive page : Type :=
| home_tpl (user_ : User.t) (today : datetime.date)
| borrow_books_tpl (books : list (Book.t * string)) (user_ : User.t)
| borrow_book_tpl (user_ : User.t) (book_ : Book.t)
                  (allowed_borrowed_days : string)
| register_tpl (form_data : RegisterForm.t)
| login_tpl (form_data : LoginForm.t).

(** [str(n)] *)
Definition str (n : Z) : string := NilZero.string_of_int (Z.to_int n).

(** *** The SELECT of [borrow_books] *)

(** The rows a LEFT OUTER JOIN gives one left row: its matches, or one
    row of NULLs. *)
Definition left_outer {A} (matches : list A) : list (option A) :=
  match matches with
  | [] => [None]
  | _ => map Some matches
  end.

(** The author names on the joined rows of book [b]:
    [book LEFT OUTER JOIN user ON borrowed_by_id = user.id
          LEFT OUTER JOIN book_author_through ON book_id = book.id
          INNER JOIN author ON author_id = author.id]. *)
Definition joined_author_names (d : Database) (b : Book.t) : list string :=
  flat_map
    (fun _ : option User.t =>
       flat_map
         (fun through : option BookAuthorThrough.t =>
            match through with
            | None => []
            | Some th =>
                map Author.name
                    (filter (fun a => Author.id a
                                      =? BookAuthorThrough.author_id th)
                            (author d))
            end)
         (left_outer
            (filter (fun th => BookAuthorThrough.book_id th =? Book.id b)
                    (book_author_through d))))
    (left_outer
       (filter (fun u => match Book.borrowed_by b with
                         | Some i => User.id u =? i
                         | None => false
                         end)
               (user d))).

(** [GROUP BY book.id] with [GROUP_CONCAT(author.name) AS author_list]:
    [id] is the primary key, so the joined rows of one book are one group,
    and a book without joined rows has no group. *)
Definition group_by_id (d : Database) : list (Book.t * string) :=
  flat_map
    (fun b => match joined_author_names d b with
              | [] => []
              | names => [(b, String.concat "," names)]
              end)
    (book d).

(** [ORDER BY title] *)
Fixpoint insert_by_title (x : Book.t * string) (l : list (Book.t * string))
  : list (Book.t * string) :=
  match l with
  | [] => [x]
  | y :: l' =>
      if String.leb (Book.title (fst x)) (Book.title (fst y))
      then x :: l
      else y :: insert_by_title x l'
  end.

Definition order_by_title (l : list (Book.t * string))
  : list (Book.t * string) :=
  fold_right insert_by_title [] l.

Definition select_books (d : Database) : list (Book.t * string) :=
  order_by_title (group_by_id d).

(** [book.borrowed_by != user]: model instances are equal when their
    primary keys are; [None] differs from every user. *)
Definition borrowed_by_ne (b : Book.t) (u : User.t) : bool :=
  match Book.borrowed_by b with
  | Some i => negb (i =? User.id u)
  | None => true
  end.

Module server.

Definition set_logged_in_user (rq : Request) (user_ : User.t) : M unit :=
  set_cookie "user-email" (User.email user_) ;;
  set_cookie "password" (User.password user_) ;;
  let user_ := User.set_logged_in true user_ in
  let user_ := User.set_last_seen (Some (time_time rq)) user_ in
  execute (peewee.User_save user_).

(** The WHERE clause of the resolver; a NULL [last_seen] makes the
    comparison NULL, which keeps no row. *)
Definition session_matches (rq : Request) (u : User.t) : bool :=
  peewee.eq_value (User.email u) (get_cookie "user-email" rq)
  && peewee.eq_value (User.password u) (get_cookie "password" rq)
  && Bool.eqb (User.logged_in u) true
  && match User.last_seen u with
     | Some seen => time_time rq - seen <? 3600
     | None => false
     end.

Definition get_logged_in_user (rq : Request) : M User.t :=
  found <- query (peewee.User_get (session_matches rq)) ;;
  match found with
  | Some user_ =>
      let user_ := User.set_last_seen (Some (time_time rq)) user_ in
      execute (peewee.User_save user_) ;;
      ret user_
  | None => redirect "/login"
  end.

Definition home (rq : Request) : M page :=
  user_ <- get_logged_in_user rq ;;
  ret (home_tpl user_ (date_today rq)).

Definition borrow_books (rq : Request) : M page :=
  user_ <- get_logged_in_user rq ;;
  books <- query select_books ;;
  let books_not_borrowed_by_current_user :=
    filter (fun row => borrowed_by_ne (fst row) user_) books in
  ret (borrow_books_tpl books_not_borrowed_by_current_user user_).

(** [except Book.DoesNotExist] catches nothing else. *)
Definition borrow_book (book_id : Z) (rq : Request) : M page :=
  user_ <- get_logged_in_user rq ;;
  found <- attempt (peewee.Book_get book_id) ;;
  match found with
  | None => abort 404 "Book not found."
  | Some book_ =>
      let book_ := Book.set_borrowed (Some (User.id user_))
                                     (Some (date_today rq)) book_ in
      execute (peewee.Book_save book_) ;;
      ret (borrow_book_tpl user_ book_ (str constants.ALLOWED_BORROW_DAYS))
  end.

(** [return True] after the redirect is never reached. *)
Definition return_book (book_id : Z) (rq : Request) : M page :=
  get_logged_in_user rq ;;
  found <- attempt (peewee.Book_get book_id) ;;
  match found with
  | None => abort 404 "Book not found."
  | Some book_ =>
      let book_ := Book.set_borrowed None None book_ in
      execute (peewee.Book_save book_) ;;
      redirect "/home"
  end.

Definition logout (rq : Request) : M page :=
  user_ <- get_logged_in_user rq ;;
  let user_ := User.set_logged_in false user_ in
  execute (peewee.User_save user_) ;;
  redirect "/login".

Definition register_landing_page (rq : Request) : M page :=
  ret (register_tpl (RegisterForm.Build "" "" "" "" "")).

Definition register (rq : Request) : M page :=
  let form_data :=
    RegisterForm.Build (forms_get "email" rq) (forms_get "password" rq)
                       (forms_get "first_name" rq)
                       (forms_get "last_name" rq) "" in
  if String.eqb (RegisterForm.first_name form_data) "" then
    ret (register_tpl
           (RegisterForm.set_error "Please enter a First Name." form_data))
  else if String.eqb (RegisterForm.last_name form_data) "" then
    ret (register_tpl
           (RegisterForm.set_error "Please enter a Last Name." form_data))
  else if String.eqb (RegisterForm.email form_data) "" then
    ret (register_tpl
           (RegisterForm.set_error "Please enter an email address."
                                   form_data))
  else if String.eqb (RegisterForm.password form_data) "" then
    ret (register_tpl
           (RegisterForm.set_error "Please enter a password." form_data))
  else
    created <- transact
                 (peewee.User_create (RegisterForm.first_name form_data)
                                     (RegisterForm.last_name form_data)
                                     (RegisterForm.email form_data)
                                     (RegisterForm.password form_data)
                                     (random_rowid rq)) ;;
    match created with
    | None =>
        ret (register_tpl
               (RegisterForm.set_error
                  ("User with email " ++ RegisterForm.email form_data
                   ++ " already registered. Please <a href='login'/>login</a> instead")
                  form_data))
    | Some user_ =>
        set_logged_in_user rq user_ ;;
        redirect "/home"
    end.

Definition login_landing_page (rq : Request) : M page :=
  ret (login_tpl (LoginForm.Build "" "" "")).

Definition login (rq : Request) : M page :=
  let form_data :=
    LoginForm.Build (forms_get "email" rq) (forms_get "password" rq) "" in
  if String.eqb (LoginForm.email form_data) "" then
    ret (login_tpl
           (LoginForm.set_error "Please enter an email address."
                                form_data))
  else if String.eqb (LoginForm.password form_data) "" then
    ret (login_tpl
           (LoginForm.set_error "Please enter a password." form_data))
  else
    found <- query (peewee.User_get
                      (fun u =>
                         String.eqb (User.email u)
                                    (LoginForm.email form_data)
                         && String.eqb (User.password u)
                                       (LoginForm.password form_data))) ;;
    match found with
    | Some user_ =>
        set_logged_in_user rq user_ ;;
        redirect "/home"
    | None =>
        ret (login_tpl
               (LoginForm.set_error
                  "Bad email/password. Please try again or Register."
                  form_data))
    end.

End server.

(** ** Serving requests *)

(** The handler bottle dispatches a request to. *)
Inductive route : Type :=
| Home
| BorrowBooks
| BorrowBook (book_id : Z)
| ReturnBook (book_id : Z)
| Logout
| RegisterLandingPage
| Register
| LoginLandingPage
| Login.

Definition handler (r : route) : Request -> M page :=
  match r with
  | Home => server.home
  | BorrowBooks => server.borrow_books
  | BorrowBook book_id => server.borrow_book book_id
  | ReturnBook book_id => server.return_book book_id
  | Logout => server.logout
  | RegisterLandingPage => server.register_landing_page
  | Register => server.register
  | LoginLandingPage => server.login_landing_page
  | Login => server.login
  end.

(** A handler runs on a response without cookies; the outcome, the
    cookies set and the database afterwards. *)
Definition run {A} (m : M A) (d : Database)
  : result A * list (string * string) * Database :=
  let (r, w) := m {| database := d; response_cookies := [] |} in
  (r, response_cookies w, database w).

Definition serve (h : Request -> M page) (rq : Request) (d : Database)
  : result page * list (string * string) * Database :=
  run (h rq) d.

Definition database_after (h : Request -> M page) (rq : Request)
           (d : Database) : Database :=
  snd (serve h rq d).

(** A sequence of requests, each with its own clock and cookies. *)
Fixpoint serve_all (reqs : list (route * Request)) (d : Database)
  : Database :=
  match reqs with
  | [] => d
  | (r, rq) :: reqs' => serve_all reqs' (database_after (handler r) rq d)
  end.

(** ** A small library, for examples *)

Module sample.

Definition ayax : User.t :=
  User.Build 1 "diaz.ayax@gmail.com" "Ayax" "Diaz" "chorizo"
             true (Some 1000) true.

Definition mustafa : User.t :=
  User.Build 2 "mustafa.sanli@gmail.com" "Mustafa" "Sanli" "1234"
             false None true.

Definition orwell : Author.t := Author.Build 1 "George Orwell".
Definition gaiman : Author.t := Author.Build 2 "Neil Gaiman".
Definition pratchett : Author.t := Author.Build 3 "Terry Pratchett".

(** 2020-01-15 *)
Definition jan15 : datetime.date := 737439.

Definition good_omens : Book.t :=
  Book.Build 1 "Good Omens" 1990 None 12 "omens.jpg" None None.

Definition animal_farm : Book.t :=
  Book.Build 2 "Animal Farm" 1945 None 40 "farm.jpg" (Some 1) (Some jan15).

(** A book no author row is linked to. *)
Definition anonymous : Book.t :=
  Book.Build 3 "Beowulf" 1000 None 0 "beowulf.jpg" None None.

Definition db : Database :=
  {| user := [ayax; mustafa];
     author := [orwell; gaiman; pratchett];
     book := [good_omens; animal_farm; anonymous];
     book_author_through :=
       [BookAuthorThrough.Build 1 1 2; BookAuthorThrough.Build 2 1 3;
        BookAuthorThrough.Build 3 2 1] |}.

(** The library without the book that has no author. *)
Definition catalogued : Database := with_book [good_omens; animal_farm] db.

Definition session (u : User.t) (now : Z) (today : datetime.date)
  : Request :=
  {| time_time := now; date_today := today;
     cookies := [("user-email", User.email u);
                 ("password", User.password u)];
     forms := []; random_rowid := 42 |}.

Definition post (fields : list (string * string)) (now : Z) : Request :=
  {| time_time := now; date_today := jan15; cookies := [];
     forms := fields; random_rowid := 42 |}.

End sample.

(** ** Constraints of the schema *)

(** [email = CharField(unique=True)] *)
Definition unique_email (d : Database) : Prop :=
  forall u1 u2, In u1 (user d) -> In u2 (user d) ->
                User.email u1 = User.email u2 -> u1 = u2.

(** ["id" INTEGER NOT NULL PRIMARY KEY] of [user] and [book] *)
Definition primary_keys (d : Database) : Prop :=
  NoDup (map User.id (user d)) /\ NoDup (map Book.id (book d)).

(** The constraints on the user table. *)
Definition user_schema (d : Database) : Prop :=
  NoDup (map User.id (user d)) /\ unique_email d.

(** ** Vocabulary of the claims, and requests of the examples *)

(** The user the resolver finds, refreshed. *)
Definition refreshed (rq : Request) (u : User.t) : User.t :=
  User.set_last_seen (Some (time_time rq)) u.

(** The row [set_logged_in_user] writes. *)
Definition logged_in_now (rq : Request) (u : User.t) : User.t :=
  User.set_last_seen (Some (time_time rq)) (User.set_logged_in true u).

Definition credentials (email password : string) (u : User.t) : bool :=
  String.eqb (User.email u) email && String.eqb (User.password u) password.

Definition already_registered (email : string) : string :=
  "User with email " ++ email
  ++ " already registered. Please <a href='login'/>login</a> instead".

(** The last day a [date] can hold, borrowed. *)
Definition borrowed_on_last_day : Book.t :=
  Book.set_borrowed (Some 1) (Some datetime.MAXORDINAL) sample.good_omens.

Definition consistent (b : Book.t) : Prop :=
  Book.borrowed_by b = None <-> Book.borrowed_at b = None.

Definition books_consistent (d : Database) : Prop :=
  forall b, In b (book d) -> consistent b.

Definition sample_requests : list (route * Request) :=
  [(BorrowBook 1, sample.session sample.ayax 1500 sample.jan15);
   (ReturnBook 2, sample.session sample.ayax 1600 sample.jan15);
   (Logout, sample.session sample.ayax 1700 sample.jan15)].

(** Two book rows that agree on everything but the borrowing fields. *)
Definition same_catalogue_entry (b b' : Book.t) : Prop :=
  Book.id b' = Book.id b
  /\ Book.title b' = Book.title b
  /\ Book.publication_year b' = Book.publication_year b
  /\ Book.average_rating b' = Book.average_rating b
  /\ Book.ratings_count b' = Book.ratings_count b
  /\ Book.image_url b' = Book.image_url b.

Definition mustafa_logs_in : Request :=
  sample.post [("email", "mustafa.sanli@gmail.com"); ("password", "1234")] 77.


Definition mustafa_registers_again : Request :=
  sample.post [("email", "mustafa.sanli@gmail.com"); ("password", "abcd");
               ("first_name", "M"); ("last_name", "S")] 77.

Module required.

Inductive field : Type := first_name | last_name | email | password.

(** The order the claim gives. *)
Definition order : list field := [first_name; last_name; email; password].

Definition submitted (rq : Request) (f : field) : string :=
  match f with
  | first_name => forms_get "first_name" rq
  | last_name => forms_get "last_name" rq
  | email => forms_get "email" rq
  | password => forms_get "password" rq
  end.

(** The message [register] has for each field. *)
Definition message (f : field) : string :=
  match f with
  | first_name => "Please enter a First Name."
  | last_name => "Please enter a Last Name."
  | email => "Please enter an email address."
  | password => "Please enter a password."
  end.

End required.

Definition nameless_registration : Request :=
  sample.post [("email", ""); ("password", "abcd"); ("first_name", "M")] 77.

(** A row comes before another in [ORDER BY title]. *)
Definition title_le (x y : Book.t * string) : Prop :=
  String.leb (Book.title (fst x)) (Book.title (fst y)) = true.

(** Book [b] is linked, through the association table, to author [a]. *)
Definition written_by (d : Database) (b : Book.t) (a : Author.t) : Prop :=
  In a (author d)
  /\ exists th, In th (book_author_through d)
                /\ BookAuthorThrough.book_id th = Book.id b
                /\ BookAuthorThrough.author_id th = Author.id a.

(** The book has a group in the SELECT. *)
Definition has_rows (d : Database) (b : Book.t) : bool :=
  match joined_author_names d b with
  | [] => false
  | _ => true
  end.

(** The session of the user with email [e] and password [p] is over: the
    row is there, and no row with that email is logged in. *)
Definition ended (e p : string) (d : Database) : Prop :=
  user_schema d
  /\ (exists u, In u (user d) /\ User.email u = e /\ User.password u = p)
  /\ (forall u, In u (user d) -> User.email u = e -> User.logged_in u = false).

(** The user logs in again: the login form with the same email and
    password. *)
Definition logs_in_again (e p : string) (r : route) (rq : Request) : Prop :=
  r = Login /\ forms_get "email" rq = e /\ forms_get "password" rq = p.

(** The routes that start with the resolver. *)
Definition authenticated (r : route) : bool :=
  match r with
  | Home | BorrowBooks | BorrowBook _ | ReturnBook _ | Logout => true
  | _ => false
  end.

(** After Ayax logs out: Mustafa logs in and borrows a book, someone
    tries Ayax's email with a wrong password. *)
Definition after_logout : list (route * Request) :=
  [(Login, mustafa_logs_in);
   (BorrowBook 1, sample.session sample.mustafa 100 sample.jan15);
   (Login, sample.post [("email", "diaz.ayax@gmail.com");
                        ("password", "chorizos")] 1550)].

(** ** Vocabulary of the further properties *)


(** The request carries the two cookies [set_logged_in_user] sets for the
    email [e] and the password [p]. *)
Definition presents (e p : string) (rq : Request) : Prop :=
  get_cookie "user-email" rq = Some e /\ get_cookie "password" rq = Some p.

(** The row [register] inserts for its form. *)
Definition registered (rq : Request) (d : Database) : User.t :=
  User.Build (sqlite.new_rowid (random_rowid rq) (map User.id (user d)))
             (forms_get "email" rq) (forms_get "first_name" rq)
             (forms_get "last_name" rq) (forms_get "password" rq)
             false None false.

Definition sample_registration : Request :=
  sample.post [("email", "bob@wailers.com"); ("password", "kaya");
               ("first_name", "Bob"); ("last_name", "Marley")] 5000.

(** ** models.py: the import of books.csv *)

Definition with_author (l : list Author.t) (d : Database) : Database :=
  {| user := user d; author := l; book := book d;
     book_author_through := book_author_through d |}.

Definition with_through (l : list BookAuthorThrough.t) (d : Database)
  : Database :=
  {| user := user d; author := author d; book := book d;
     book_author_through := l |}.

(** A row of books.csv after the unused columns are deleted, with the
    values [Book.create] stores for it; [authors] is the text of the
    column. *)
Module books_csv.

Record row : Type := Build {
  title : string;
  authors : string;
  publication_year : Z;
  average_rating : option QArith_base.Q;
  ratings_count : Z;
  image_url : string
}.

End books_csv.

(** [s.split(", ")]: the pieces of [s] between the occurrences of a comma
    followed by a space, found from the left; never the empty list. *)
Fixpoint split_comma_space (s : string) : list string :=
  match s with
  | EmptyString => [""]
  | String c rest =>
      let unsplit :=
        match split_comma_space rest with
        | [] => [String c ""]
        | piece :: pieces => String c piece :: pieces
        end in
      if Ascii.eqb c "," then
        match rest with
        | String c' rest' =>
            if Ascii.eqb c' " " then "" :: split_comma_space rest'
            else unsplit
        | EmptyString => unsplit
        end
      else unsplit
  end.

Module models.

(** What [create_initial_data] ends with: it returns, or the
    [IntegrityError] of a [create] leaves it, with the rows written so
    far. *)
Inductive outcome : Type :=
| Done (d : Database)
| IntegrityError (d : Database).

(** [recreate_all_tables]: the file is removed and the four tables are
    created, empty. *)
Definition recreate_all_tables : Database :=
  {| user := []; author := []; book := []; book_author_through := [] |}.

Section ImportLoop.

(** The order in which a [set] of strings is iterated is not specified:
    [set_ l] is the order Python takes for [set(l)]. *)
Variable set_ : list string -> list string.

(** Where the random search of sqlite for a rowid ends, for the table of
    that name when it holds these rowids. *)
Variable random_rowid : string -> list Z -> Z.

(** [User.create(email=, first_name=, last_name=, password=, is_admin=)] *)
Definition User_create (email first_name last_name password : string)
           (is_admin : bool) (d : Database) : option User.t * Database :=
  if existsb (fun r => String.eqb (User.email r) email) (user d)
  then (None, d)
  else
    let ids := map User.id (user d) in
    let u := User.Build (sqlite.new_rowid (random_rowid "user" ids) ids)
                        email first_name last_name password
                        false None is_admin in
    (Some u, with_user (sqlite.insert_row User.id u (user d)) d).

(** [Author.get_or_create(name=name)]: the first author of that name, or
    a new row. *)
Definition Author_get_or_create (name : string) (d : Database)
  : Author.t * Database :=
  match find (fun a => String.eqb (Author.name a) name) (author d) with
  | Some a => (a, d)
  | None =>
      let ids := map Author.id (author d) in
      let a := Author.Build
                 (sqlite.new_rowid (random_rowid "author" ids) ids) name in
      (a, with_author (sqlite.insert_row Author.id a (author d)) d)
  end.

(** The loop over the author names of a row; [authors_data] in the order
    of the loop. *)
Fixpoint get_or_create_all (names : list string) (d : Database)
  : list Author.t * Database :=
  match names with
  | [] => ([], d)
  | name :: names' =>
      let (a, d1) := Author_get_or_create name d in
      let (authors_data, d2) := get_or_create_all names' d1 in
      (a :: authors_data, d2)
  end.

(** [Book.create] with the row as keyword arguments: the unique index
    of [title] can refuse the INSERT; the borrowing columns are null. *)
Definition Book_create (row : books_csv.row) (d : Database)
  : option Book.t * Database :=
  if existsb (fun b => String.eqb (Book.title b) (books_csv.title row))
             (book d)
  then (None, d)
  else
    let ids := map Book.id (book d) in
    let b := Book.Build (sqlite.new_rowid (random_rowid "book" ids) ids)
                        (books_csv.title row)
                        (books_csv.publication_year row)
                        (books_csv.average_rating row)
                        (books_csv.ratings_count row)
                        (books_csv.image_url row) None None in
    (Some b, with_book (sqlite.insert_row Book.id b (book d)) d).

(** One INSERT into the association table. *)
Definition through_insert (book_id : Z) (l : list BookAuthorThrough.t)
           (a : Author.t) : list BookAuthorThrough.t :=
  let ids := map BookAuthorThrough.id l in
  sqlite.insert_row
    BookAuthorThrough.id
    (BookAuthorThrough.Build
       (sqlite.new_rowid (random_rowid "book_author_through" ids) ids)
       book_id (Author.id a))
    l.

(** [book.authors = authors_data]: the association rows of the book are
    deleted, then one is inserted for each author. *)
Definition set_authors (b : Book.t) (authors_data : list Author.t)
           (d : Database) : Database :=
  with_through
    (fold_left
       (through_insert (Book.id b))
       authors_data
       (filter (fun th => negb (BookAuthorThrough.book_id th =? Book.id b))
               (book_author_through d)))
    d.

(** The body of the loop over the rows. *)
Definition import_row (row : books_csv.row) (d : Database) : outcome :=
  let authors_list := split_comma_space (books_csv.authors row) in
  let (authors_data, d1) := get_or_create_all (set_ authors_list) d in
  match Book_create row d1 with
  | (None, d2) => IntegrityError d2
  | (Some book_, d2) =>
      Done (peewee.Book_save book_ (set_authors book_ authors_data d2))
  end.

Fixpoint import_rows (rows : list books_csv.row) (d : Database) : outcome :=
  match rows with
  | [] => Done d
  | row :: rows' =>
      match import_row row d with
      | Done d' => import_rows rows' d'
      | IntegrityError d' => IntegrityError d'
      end
  end.

(** [create_initial_data], on the rows [csv.DictReader] reads. *)
Definition create_initial_data (rows : list books_csv.row) (d : Database)
  : outcome :=
  match User_create "diaz.ayax@gmail.com" "Ayax" "Diaz" "chorizo" true d with
  | (None, d1) => IntegrityError d1
  | (Some _, d1) =>
      match User_create "mustafa.sanli@gmail.com" "Mustafa" "Sanli" "1234"
                        true d1 with
      | (None, d2) => IntegrityError d2
      | (Some _, d2) => import_rows rows d2
      end
  end.

End ImportLoop.

End models.

(** Two rows of a books.csv, and Python's iteration of a set taken in the
    order of first occurrence. *)
Definition sample_rows : list books_csv.row :=
  [books_csv.Build "Good Omens" "Terry Pratchett, Neil Gaiman" 1990 None 12
                   "omens.jpg";
   books_csv.Build "Coraline" "Neil Gaiman" 2002 None 7 "coraline.jpg"].

Definition first_occurrences (l : list string) : list string :=
  nodup String.string_dec l.

(** A random search for a rowid that ends on 7 in every table. *)
Definition sample_random_rowid (table : string) (ids : list Z) : Z := 7.

(** Every positive integer up to a rowid of the table is a rowid of the
    table, as in a table filled by INSERTs from empty. *)
Definition gapless (ids : list Z) : Prop :=
  forall i j, 0 < i -> i <= j -> In j ids -> In i ids.

(** What the import keeps true of the database, row after row. *)
Definition imported (d : Database) : Prop :=
  gapless (map Book.id (book d))
  /\ NoDup (map Book.id (book d))
  /\ NoDup (map Book.title (book d))
  /\ NoDup (map Author.id (author d))
  /\ NoDup (map Author.name (author d))
  /\ (forall th, In th (book_author_through d) ->
                 exists a, In a (author d)
                           /\ Author.id a = BookAuthorThrough.author_id th)
  /\ (forall b, In b (book d) ->
                Book.borrowed_by b = None /\ Book.borrowed_at b = None
                /\ exists a, written_by d b a).

(** The names of the authors a book is linked to. *)
Definition author_name_of (d : Database) (b : Book.t) (n : string) : Prop :=
  exists a, written_by d b a /\ Author.name a = n.

(** The book the import makes of a row. *)
Definition book_of_row (d : Database) (row : books_csv.row) (b : Book.t)
  : Prop :=
  Book.title b = books_csv.title row
  /\ Book.publication_year b = books_csv.publication_year row
  /\ Book.average_rating b = books_csv.average_rating row
  /\ Book.ratings_count b = books_csv.ratings_count row
  /\ Book.image_url b = books_csv.image_url row
  /\ Book.borrowed_by b = None /\ Book.borrowed_at b = None
  /\ forall n, author_name_of d b n
               <-> In n (split_comma_space (books_csv.authors row)).

(** The two users [create_initial_data] creates. *)
Definition initial_users : list User.t :=
  [User.Build 1 "diaz.ayax@gmail.com" "Ayax" "Diaz" "chorizo"
              false None true;
   User.Build 2 "mustafa.sanli@gmail.com" "Mustafa" "Sanli" "1234"
              false None true].

(** * Lemmas on the model *)

(** ** What each handler does, as one equation *)

Ltac unfold_handler :=
  unfold serve, run, server.home, server.borrow_books, server.borrow_book,
    server.return_book, server.logout, server.login, server.register,
    server.register_landing_page, server.login_landing_page,
    server.set_logged_in_user, server.get_logged_in_user,
    bind, query, attempt, execute, transact, set_cookie, ret, redirect,
    abort, raise;
  cbn [database response_cookies fst snd app].

(** Saving a user leaves the book table as it is. *)
Ltac skip_user_save :=
  match goal with
  | |- context [peewee.Book_get ?i (peewee.User_save ?x ?d)] =>
      change (peewee.Book_get i (peewee.User_save x d))
        with (peewee.Book_get i d)
  end.

Lemma run_get_logged_in_user (rq : Request) (d : Database) :
  run (server.get_logged_in_user rq) d =
  match peewee.User_get (server.session_matches rq) d with
  | Some u => (Return (refreshed rq u), [],
               peewee.User_save (refreshed rq u) d)
  | None => (Raise (Redirect "/login"), [], d)
  end.
Proof.
  unfold_handler.
  destruct (peewee.User_get (server.session_matches rq) d); reflexivity.
Qed.

Lemma serve_borrow_book (book_id : Z) (rq : Request) (d : Database) :
  serve (server.borrow_book book_id) rq d =
  match peewee.User_get (server.session_matches rq) d with
  | None => (Raise (Redirect "/login"), [], d)
  | Some u =>
      let d1 := peewee.User_save (refreshed rq u) d in
      if sqlite.fits_integer book_id then
        match peewee.Book_select book_id d with
        | None => (Raise (HTTPError 404 "Book not found."), [], d1)
        | Some b =>
            let b' := Book.set_borrowed (Some (User.id u))
                                        (Some (date_today rq)) b in
            (Return (borrow_book_tpl (refreshed rq u) b' "30"), [],
             peewee.Book_save b' d1)
        end
      else (Raise OverflowError, [], d1)
  end.
Proof.
  unfold_handler.
  destruct (peewee.User_get (server.session_matches rq) d) as [u|];
    [|reflexivity].
  cbn [database response_cookies].
  skip_user_save. unfold peewee.Book_get.
  destruct (sqlite.fits_integer book_id); [|reflexivity].
  destruct (peewee.Book_select book_id d); reflexivity.
Qed.

Lemma serve_return_book (book_id : Z) (rq : Request) (d : Database) :
  serve (server.return_book book_id) rq d =
  match peewee.User_get (server.session_matches rq) d with
  | None => (Raise (Redirect "/login"), [], d)
  | Some u =>
      let d1 := peewee.User_save (refreshed rq u) d in
      if sqlite.fits_integer book_id then
        match peewee.Book_select book_id d with
        | None => (Raise (HTTPError 404 "Book not found."), [], d1)
        | Some b =>
            (Raise (Redirect "/home"), [],
             peewee.Book_save (Book.set_borrowed None None b) d1)
        end
      else (Raise OverflowError, [], d1)
  end.
Proof.
  unfold_handler.
  destruct (peewee.User_get (server.session_matches rq) d) as [u|];
    [|reflexivity].
  cbn [database response_cookies].
  skip_user_save. unfold peewee.Book_get.
  destruct (sqlite.fits_integer book_id); [|reflexivity].
  destruct (peewee.Book_select book_id d); reflexivity.
Qed.

Lemma serve_logout (rq : Request) (d : Database) :
  serve server.logout rq d =
  match peewee.User_get (server.session_matches rq) d with
  | None => (Raise (Redirect "/login"), [], d)
  | Some u =>
      (Raise (Redirect "/login"), [],
       peewee.User_save (User.set_logged_in false (refreshed rq u))
                        (peewee.User_save (refreshed rq u) d))
  end.
Proof.
  unfold_handler.
  destruct (peewee.User_get (server.session_matches rq) d); reflexivity.
Qed.

Lemma serve_home (rq : Request) (d : Database) :
  serve server.home rq d =
  match peewee.User_get (server.session_matches rq) d with
  | None => (Raise (Redirect "/login"), [], d)
  | Some u => (Return (home_tpl (refreshed rq u) (date_today rq)), [],
               peewee.User_save (refreshed rq u) d)
  end.
Proof.
  unfold_handler.
  destruct (peewee.User_get (server.session_matches rq) d); reflexivity.
Qed.

Lemma serve_borrow_books (rq : Request) (d : Database) :
  serve server.borrow_books rq d =
  match peewee.User_get (server.session_matches rq) d with
  | None => (Raise (Redirect "/login"), [], d)
  | Some u =>
      let d1 := peewee.User_save (refreshed rq u) d in
      (Return (borrow_books_tpl
                 (filter (fun row => borrowed_by_ne (fst row) (refreshed rq u))
                         (select_books d1))
                 (refreshed rq u)), [], d1)
  end.
Proof.
  unfold_handler.
  destruct (peewee.User_get (server.session_matches rq) d); reflexivity.
Qed.

Lemma serve_login (rq : Request) (d : Database) :
  serve server.login rq d =
  let email := forms_get "email" rq in
  let password := forms_get "password" rq in
  if String.eqb email "" then
    (Return (login_tpl (LoginForm.Build email password
                          "Please enter an email address.")), [], d)
  else if String.eqb password "" then
    (Return (login_tpl (LoginForm.Build email password
                          "Please enter a password.")), [], d)
  else
    match peewee.User_get (credentials email password) d with
    | Some u =>
        (Raise (Redirect "/home"),
         [("user-email", User.email u); ("password", User.password u)],
         peewee.User_save (logged_in_now rq u) d)
    | None =>
        (Return (login_tpl
                   (LoginForm.Build email password
                      "Bad email/password. Please try again or Register.")),
         [], d)
    end.
Proof.
  unfold_handler. cbn [LoginForm.email LoginForm.password].
  destruct (String.eqb (forms_get "email" rq) ""); [reflexivity|].
  destruct (String.eqb (forms_get "password" rq) ""); [reflexivity|].
  fold (credentials (forms_get "email" rq) (forms_get "password" rq)).
  cbn [database].
  destruct (peewee.User_get _ d); reflexivity.
Qed.

Lemma serve_register (rq : Request) (d : Database) :
  serve server.register rq d =
  let form_data :=
    RegisterForm.Build (forms_get "email" rq) (forms_get "password" rq)
                       (forms_get "first_name" rq) (forms_get "last_name" rq)
                       "" in
  let render msg :=
    (Return (register_tpl (RegisterForm.set_error msg form_data)), [], d) in
  if String.eqb (forms_get "first_name" rq) "" then
    render "Please enter a First Name."
  else if String.eqb (forms_get "last_name" rq) "" then
    render "Please enter a Last Name."
  else if String.eqb (forms_get "email" rq) "" then
    render "Please enter an email address."
  else if String.eqb (forms_get "password" rq) "" then
    render "Please enter a password."
  else if existsb (fun r => String.eqb (User.email r) (forms_get "email" rq))
                  (user d) then
    render (already_registered (forms_get "email" rq))
  else
    let u := registered rq d in
    (Raise (Redirect "/home"),
     [("user-email", forms_get "email" rq);
      ("password", forms_get "password" rq)],
     peewee.User_save (logged_in_now rq u)
                      (with_user (sqlite.insert_row User.id u (user d)) d)).
Proof.
  unfold_handler.
  cbn [RegisterForm.email RegisterForm.password RegisterForm.first_name
       RegisterForm.last_name].
  destruct (String.eqb (forms_get "first_name" rq) ""); [reflexivity|].
  destruct (String.eqb (forms_get "last_name" rq) ""); [reflexivity|].
  destruct (String.eqb (forms_get "email" rq) ""); [reflexivity|].
  destruct (String.eqb (forms_get "password" rq) ""); [reflexivity|].
  unfold peewee.User_create. cbn [database].
  destruct (existsb _ (user d)); reflexivity.
Qed.

(** ** Lookups *)

Lemma find_none_iff {A} (f : A -> bool) (l : list A) :
  find f l = None <-> forall x, In x l -> f x = false.
Proof.
  split.
  - apply find_none.
  - induction l as [|a l IH]; intro H; [reflexivity|].
    cbn. rewrite (H a (or_introl eq_refl)). apply IH.
    intros x Hx. apply H. now right.
Qed.

Lemma session_matches_iff (rq : Request) (u : User.t) :
  server.session_matches rq u = true <->
  get_cookie "user-email" rq = Some (User.email u)
  /\ get_cookie "password" rq = Some (User.password u)
  /\ User.logged_in u = true
  /\ exists seen, User.last_seen u = Some seen /\ time_time rq - seen < 3600.
Proof.
  unfold server.session_matches, peewee.eq_value.
  rewrite !andb_true_iff.
  destruct (get_cookie "user-email" rq) as [e|],
           (get_cookie "password" rq) as [p|],
           (User.last_seen u) as [seen|];
    try rewrite !String.eqb_eq; try rewrite Z.ltb_lt;
    try rewrite Bool.eqb_true_iff;
    split; intro H; try (now decompose [and] H);
    try (destruct H as (_ & _ & _ & s & Hs & _); discriminate).
  - destruct H as (((-> & ->) & H1) & H2). repeat split; trivial.
    exists seen. now split.
  - destruct H as (H1 & H2 & H3 & s & Hs & Hlt).
    injection H1 as ->. injection H2 as ->. injection Hs as ->.
    repeat split; trivial.
Qed.

(** Under the unique index, the session's row is the row the resolver
    looks at. *)
Lemma User_get_session (rq : Request) (d : Database) (u : User.t) :
  unique_email d -> In u (user d) ->
  get_cookie "user-email" rq = Some (User.email u) ->
  peewee.User_get (server.session_matches rq) d =
  if server.session_matches rq u then Some u else None.
Proof.
  intros Huniq Hin Hcookie. unfold peewee.User_get.
  destruct (find (server.session_matches rq) (user d)) as [v|] eqn:Hfind.
  - apply find_some in Hfind. destruct Hfind as [Hv Hm].
    assert (v = u) as ->.
    { apply Huniq; trivial.
      apply session_matches_iff in Hm. destruct Hm as (He & _).
      congruence. }
    now rewrite Hm.
  - rewrite (find_none _ _ Hfind u Hin). reflexivity.
Qed.

Lemma credentials_iff (email password : string) (u : User.t) :
  credentials email password u = true <->
  User.email u = email /\ User.password u = password.
Proof.
  unfold credentials. now rewrite andb_true_iff, !String.eqb_eq.
Qed.

Lemma Book_select_none_iff (book_id : Z) (d : Database) :
  peewee.Book_select book_id d = None <->
  forall b, In b (book d) -> Book.id b <> book_id.
Proof.
  unfold peewee.Book_select. rewrite find_none_iff.
  split; intros H b Hb; specialize (H b Hb).
  - now apply Z.eqb_neq.
  - now apply Z.eqb_neq.
Qed.

Lemma fits_integer_iff (i : Z) :
  sqlite.fits_integer i = true <-> sqlite.MIN_INTEGER <= i <= sqlite.MAX_ROWID.
Proof.
  unfold sqlite.fits_integer. now rewrite andb_true_iff, !Z.leb_le.
Qed.

Lemma Book_select_of (book_id : Z) (d : Database) (b0 : Book.t) :
  In b0 (book d) -> Book.id b0 = book_id ->
  exists b, peewee.Book_select book_id d = Some b.
Proof.
  intros Hin Hid. destruct (peewee.Book_select book_id d) as [b|] eqn:Hb;
    [now exists b|].
  now elim (proj1 (Book_select_none_iff book_id d) Hb b0 Hin).
Qed.

Lemma sample_unique_email : unique_email sample.db.
Proof.
  intros u1 u2 [<-|[<-|[]]] [<-|[<-|[]]] H;
    try reflexivity; discriminate H.
Qed.

Lemma sample_primary_keys : primary_keys sample.db.
Proof.
  split; cbn; repeat constructor; cbn; intuition discriminate.
Qed.

(** ** Saving rows *)

Section Save.

Context {A : Type} (key : A -> Z) (x : A).

Lemma in_save_row (l : list A) (r : A) :
  In r (save_row key x l) ->
  (r = x /\ exists r0, In r0 l /\ key r0 = key x)
  \/ (In r l /\ key r <> key x).
Proof.
  unfold save_row. rewrite in_map_iff. intros (r0 & Hr & Hin).
  destruct (key r0 =? key x) eqn:Hk.
  - left. split; [now symmetry|]. exists r0. split; trivial.
    now apply Z.eqb_eq.
  - right. subst r. split; trivial. now apply Z.eqb_neq.
Qed.

Lemma save_row_in (l : list A) (r0 : A) :
  In r0 l -> key r0 = key x -> In x (save_row key x l).
Proof.
  intros Hin Hk. unfold save_row. apply in_map_iff. exists r0.
  split; trivial. now rewrite Hk, Z.eqb_refl.
Qed.

Lemma save_row_Forall2 (R : A -> A -> Prop) (l : list A) :
  (forall r, In r l -> key r = key x -> R r x) ->
  (forall r, In r l -> key r <> key x -> R r r) ->
  Forall2 R l (save_row key x l).
Proof.
  induction l as [|a l IH]; intros Hx Hr; cbn; constructor.
  - destruct (key a =? key x) eqn:Hk.
    + apply Hx; [now left|now apply Z.eqb_eq].
    + apply Hr; [now left|now apply Z.eqb_neq].
  - apply IH; intros r Hin; [apply Hx|apply Hr]; now right.
Qed.

End Save.

Lemma NoDup_key_inj {A} (key : A -> Z) (l : list A) (x y : A) :
  NoDup (map key l) -> In x l -> In y l -> key x = key y -> x = y.
Proof.
  induction l as [|a l IH]; cbn; intros Hnd Hx Hy Hk; [contradiction|].
  inversion Hnd as [|? ? Hnotin Hnd']; subst.
  destruct Hx as [->|Hx], Hy as [->|Hy]; trivial.
  - exfalso. apply Hnotin. rewrite Hk. now apply in_map.
  - exfalso. apply Hnotin. rewrite <- Hk. now apply in_map.
  - now apply IH.
Qed.

Lemma Forall2_same {A} (R : A -> A -> Prop) (l : list A) :
  (forall x, In x l -> R x x) -> Forall2 R l l.
Proof.
  induction l as [|a l IH]; intro H; constructor.
  - apply H. now left.
  - apply IH. intros x Hx. apply H. now right.
Qed.

Lemma book_User_save (u : User.t) (d : Database) :
  book (peewee.User_save u d) = book d.
Proof. reflexivity. Qed.

Lemma user_Book_save (b : Book.t) (d : Database) :
  user (peewee.Book_save b d) = user d.
Proof. reflexivity. Qed.

Lemma Book_select_some (book_id : Z) (d : Database) (b : Book.t) :
  peewee.Book_select book_id d = Some b -> In b (book d) /\ Book.id b = book_id.
Proof.
  unfold peewee.Book_select. intro H. apply find_some in H.
  destruct H as [Hin Hid]. split; trivial. now apply Z.eqb_eq.
Qed.

Lemma User_get_some (f : User.t -> bool) (d : Database) (u : User.t) :
  peewee.User_get f d = Some u -> In u (user d) /\ f u = true.
Proof. unfold peewee.User_get. apply find_some. Qed.

(** The resolver succeeded: what it returned and what it wrote. *)
Lemma resolved (rq : Request) (d d1 : Database) (caller : User.t)
      (cs : list (string * string)) :
  run (server.get_logged_in_user rq) d = (Return caller, cs, d1) ->
  exists u, peewee.User_get (server.session_matches rq) d = Some u
            /\ caller = refreshed rq u
            /\ d1 = peewee.User_save (refreshed rq u) d.
Proof.
  rewrite run_get_logged_in_user.
  destruct (peewee.User_get (server.session_matches rq) d) as [u|];
    [|discriminate].
  intro H. injection H as <- _ <-. now exists u.
Qed.

(** ** The order of titles *)

Lemma string_compare_trans (c : comparison) (s1 s2 s3 : string) :
  String.compare s1 s2 = c -> String.compare s2 s3 = c ->
  String.compare s1 s3 = c.
Proof.
  revert s2 s3.
  induction s1 as [|a1 s1 IH]; intros [|a2 s2] [|a3 s3]; cbn;
    try congruence.
  change (Ascii.compare a1 a2)
    with (N.compare (N_of_ascii a1) (N_of_ascii a2)).
  change (Ascii.compare a2 a3)
    with (N.compare (N_of_ascii a2) (N_of_ascii a3)).
  change (Ascii.compare a1 a3)
    with (N.compare (N_of_ascii a1) (N_of_ascii a3)).
  destruct (N.compare_spec (N_of_ascii a1) (N_of_ascii a2)) as [H12|H12|H12],
           (N.compare_spec (N_of_ascii a2) (N_of_ascii a3)) as [H23|H23|H23],
           (N.compare_spec (N_of_ascii a1) (N_of_ascii a3)) as [H13|H13|H13];
    try congruence; try lia; try (intros <-; discriminate).
  apply IH.
Qed.

Lemma string_leb_trans (s1 s2 s3 : string) :
  String.leb s1 s2 = true -> String.leb s2 s3 = true ->
  String.leb s1 s3 = true.
Proof.
  unfold String.leb.
  destruct (String.compare s1 s2) eqn:H12; try discriminate;
    destruct (String.compare s2 s3) eqn:H23; try discriminate; intros _ _.
  - apply String.compare_eq_iff in H12. subst. now rewrite H23.
  - apply String.compare_eq_iff in H12. subst. now rewrite H23.
  - apply String.compare_eq_iff in H23. subst. now rewrite H12.
  - now rewrite (string_compare_trans Lt _ _ _ H12 H23).
Qed.

Lemma in_insert_by_title (x y : Book.t * string) (l : list (Book.t * string)) :
  In y (insert_by_title x l) <-> y = x \/ In y l.
Proof.
  induction l as [|z l IH]; cbn.
  - intuition.
  - destruct (String.leb _ _); cbn; rewrite ?IH; intuition.
Qed.

Lemma in_order_by_title (y : Book.t * string) (l : list (Book.t * string)) :
  In y (order_by_title l) <-> In y l.
Proof.
  induction l as [|x l IH]; cbn; [reflexivity|].
  rewrite in_insert_by_title, IH. intuition.
Qed.

Lemma insert_by_title_sorted (x : Book.t * string)
      (l : list (Book.t * string)) :
  StronglySorted title_le l -> StronglySorted title_le (insert_by_title x l).
Proof.
  induction 1 as [|z l Hs IH Hall]; cbn.
  - repeat constructor.
  - destruct (String.leb (Book.title (fst x)) (Book.title (fst z))) eqn:Hle.
    + constructor; [now constructor|].
      constructor; [exact Hle|].
      rewrite Forall_forall in *. intros y Hy.
      eapply string_leb_trans; [exact Hle|]. now apply Hall.
    + constructor; [exact IH|].
      rewrite Forall_forall in *. intros y Hy.
      apply in_insert_by_title in Hy. destruct Hy as [->|Hy]; [|now apply Hall].
      unfold title_le.
      destruct (String.leb_total (Book.title (fst x)) (Book.title (fst z)));
        congruence.
Qed.

Lemma order_by_title_sorted (l : list (Book.t * string)) :
  StronglySorted title_le (order_by_title l).
Proof.
  induction l as [|x l IH]; cbn; [constructor|].
  now apply insert_by_title_sorted.
Qed.

Lemma filter_sorted {A} (R : A -> A -> Prop) (f : A -> bool) (l : list A) :
  StronglySorted R l -> StronglySorted R (filter f l).
Proof.
  induction 1 as [|x l Hs IH Hall]; cbn; [constructor|].
  destruct (f x); [|exact IH].
  constructor; [exact IH|].
  rewrite Forall_forall in *. intros y Hy.
  apply filter_In in Hy. now apply Hall.
Qed.

Lemma insert_by_title_perm (x : Book.t * string)
      (l : list (Book.t * string)) :
  Permutation (insert_by_title x l) (x :: l).
Proof.
  induction l as [|z l IH]; cbn; [reflexivity|].
  destruct (String.leb _ _); [reflexivity|].
  rewrite IH. apply perm_swap.
Qed.

Lemma order_by_title_perm (l : list (Book.t * string)) :
  Permutation (order_by_title l) l.
Proof.
  induction l as [|x l IH]; cbn; [reflexivity|].
  rewrite insert_by_title_perm. now constructor.
Qed.

Lemma filter_perm {A} (f : A -> bool) (l l' : list A) :
  Permutation l l' -> Permutation (filter f l) (filter f l').
Proof.
  induction 1 as [|x l l' _ IH|x y l|l l' l'' _ IH1 _ IH2]; cbn.
  - constructor.
  - destruct (f x); [now constructor|exact IH].
  - destruct (f x), (f y); try reflexivity. apply perm_swap.
  - now rewrite IH1.
Qed.

(** ** The joins of [borrow_books] *)

Lemma in_left_outer {A} (x : A) (l : list A) :
  In (Some x) (left_outer l) <-> In x l.
Proof.
  destruct l as [|a l]; cbn.
  - intuition discriminate.
  - rewrite in_map_iff. split.
    + intros [H|(y & H & Hy)]; [left|right]; congruence.
    + intros [->|H]; [now left|]. right. now exists x.
Qed.

Lemma left_outer_inhabited {A} (l : list A) : exists o, In o (left_outer l).
Proof.
  destruct l as [|a l]; cbn; eexists; left; reflexivity.
Qed.

Lemma in_joined_author_names (d : Database) (b : Book.t) (n : string) :
  In n (joined_author_names d b) <->
  exists a, written_by d b a /\ Author.name a = n.
Proof.
  unfold joined_author_names, written_by.
  rewrite in_flat_map. split.
  - intros (_ & _ & H). apply in_flat_map in H.
    destruct H as ([th|] & Hth & Hn); [|contradiction].
    apply in_left_outer, filter_In in Hth. destruct Hth as [Hth Hb].
    apply in_map_iff in Hn. destruct Hn as (a & Hname & Ha).
    apply filter_In in Ha. destruct Ha as [Ha Hid].
    apply Z.eqb_eq in Hb, Hid.
    exists a. split; [split; [exact Ha|]|exact Hname].
    exists th. repeat split; trivial. now symmetry.
  - intros (a & (Ha & th & Hth & Hb & Hid) & Hname).
    destruct (left_outer_inhabited
                (filter (fun u => match Book.borrowed_by b with
                                  | Some i => User.id u =? i
                                  | None => false
                                  end) (user d))) as [o Ho].
    exists o. split; [exact Ho|].
    apply in_flat_map. exists (Some th). split.
    + apply in_left_outer, filter_In. split; trivial. now apply Z.eqb_eq.
    + apply in_map_iff. exists a. split; trivial.
      apply filter_In. split; trivial. apply Z.eqb_eq. now symmetry.
Qed.

Lemma joined_author_names_nonempty (d : Database) (b : Book.t) :
  joined_author_names d b <> [] <-> exists a, written_by d b a.
Proof.
  split.
  - destruct (joined_author_names d b) as [|n l] eqn:H; [congruence|].
    intros _.
    destruct (proj1 (in_joined_author_names d b n)) as (a & Ha & _).
    + rewrite H. now left.
    + now exists a.
  - intros (a & Ha) H.
    assert (Hin : In (Author.name a) (joined_author_names d b))
      by (apply in_joined_author_names; now exists a).
    now rewrite H in Hin.
Qed.

Lemma in_group_by_id (d : Database) (b : Book.t) (names : string) :
  In (b, names) (group_by_id d) <->
  In b (book d)
  /\ joined_author_names d b <> []
  /\ names = String.concat "," (joined_author_names d b).
Proof.
  unfold group_by_id. rewrite in_flat_map. split.
  - intros (b' & Hb' & H).
    destruct (joined_author_names d b') as [|n l] eqn:Hn; [contradiction|].
    destruct H as [H|[]]. injection H as -> <-.
    rewrite Hn. repeat split; trivial. discriminate.
  - intros (Hb & Hne & ->). exists b. split; trivial.
    destruct (joined_author_names d b); [congruence|]. now left.
Qed.

Lemma borrowed_by_ne_iff (b : Book.t) (u : User.t) :
  borrowed_by_ne b u = true <-> Book.borrowed_by b <> Some (User.id u).
Proof.
  unfold borrowed_by_ne. destruct (Book.borrowed_by b) as [i|].
  - rewrite negb_true_iff, Z.eqb_neq. split; congruence.
  - split; [discriminate|reflexivity].
Qed.

Lemma map_fst_group_by_id (d : Database) :
  map fst (group_by_id d) = filter (has_rows d) (book d).
Proof.
  unfold group_by_id, has_rows.
  induction (book d) as [|b l IH]; [reflexivity|].
  cbn [flat_map filter]. rewrite map_app, IH.
  destruct (joined_author_names d b); reflexivity.
Qed.

Lemma map_fst_filter {A B} (p : A -> bool) (l : list (A * B)) :
  map fst (filter (fun row => p (fst row)) l) = filter p (map fst l).
Proof.
  induction l as [|x l IH]; cbn; [reflexivity|].
  destruct (p (fst x)); cbn; now rewrite IH.
Qed.

(** ** The user table under the handlers *)

Section SaveKeys.

Context {A : Type} (key : A -> Z).

Lemma map_key_save_row (x : A) (l : list A) :
  map key (save_row key x l) = map key l.
Proof.
  unfold save_row. rewrite map_map. apply map_ext. intro a.
  destruct (key a =? key x) eqn:Hk; [|reflexivity].
  apply Z.eqb_eq in Hk. now rewrite Hk.
Qed.

Lemma save_row_keep (x r : A) (l : list A) :
  In r l -> key r <> key x -> In r (save_row key x l).
Proof.
  intros Hin Hk. apply in_map_iff. exists r. split; trivial.
  apply Z.eqb_neq in Hk. now rewrite Hk.
Qed.

Lemma save_row_twice (x y : A) (l : list A) :
  key y = key x -> save_row key y (save_row key x l) = save_row key y l.
Proof.
  intro Hk. unfold save_row. rewrite map_map. apply map_ext.
  intro a. rewrite Hk.
  destruct (key a =? key x) eqn:Ha; [|now rewrite Ha].
  now rewrite <- Hk, Z.eqb_refl.
Qed.

End SaveKeys.

(** Saving a row of the table with its id and email as they were keeps
    the constraints. *)
Lemma user_schema_save (d : Database) (u u' : User.t) :
  user_schema d -> In u (user d) ->
  User.id u' = User.id u -> User.email u' = User.email u ->
  user_schema (peewee.User_save u' d).
Proof.
  intros [Hpk Huniq] Hin Hid He. split.
  - change (user (peewee.User_save u' d))
      with (save_row User.id u' (user d)).
    now rewrite map_key_save_row.
  - intros r1 r2 H1 H2 Hr.
    apply (in_save_row User.id) in H1, H2.
    destruct H1 as [[-> _]|[H1 N1]], H2 as [[-> _]|[H2 N2]]; trivial.
    + exfalso. apply N2. rewrite Hid. f_equal.
      apply Huniq; trivial. congruence.
    + exfalso. apply N1. rewrite Hid. f_equal.
      apply Huniq; trivial. congruence.
    + now apply Huniq.
Qed.

(** ** Inserting rows *)

Lemma fold_max_le (i : Z) (l : list Z) (j : Z) :
  In j (i :: l) -> j <= fold_right Z.max i l.
Proof.
  induction l as [|k l IH]; cbn [fold_right].
  - intros [->|[]]. lia.
  - intros [->|[->|H]].
    + specialize (IH (or_introl eq_refl)). lia.
    + lia.
    + specialize (IH (or_intror H)). lia.
Qed.

Lemma fold_max_in (i : Z) (l : list Z) : In (fold_right Z.max i l) (i :: l).
Proof.
  induction l as [|k l IH]; cbn [fold_right]; [now left|].
  destruct (Z.max_spec k (fold_right Z.max i l)) as [[_ ->]|[_ ->]].
  - destruct IH as [IH|IH]; [now left|right; now right].
  - right. now left.
Qed.

(** The rowid of a new row is the rowid of no row. *)
Lemma new_rowid_fresh (random_rowid : Z) (ids : list Z) :
  ~ In (sqlite.new_rowid random_rowid ids) ids.
Proof.
  destruct ids as [|i l]; [intros []|].
  unfold sqlite.new_rowid. cbv zeta.
  pose proof (fold_max_le i l) as Hle.
  destruct (fold_right Z.max i l <? sqlite.MAX_ROWID).
  - intro H. apply Hle in H. lia.
  - destruct ((0 <? random_rowid) && (random_rowid <=? sqlite.MAX_ROWID)
              && negb (existsb (Z.eqb random_rowid) (i :: l))) eqn:Hv.
    + apply andb_true_iff in Hv. destruct Hv as [_ Hv].
      apply negb_true_iff in Hv. intro H.
      assert (Ht : existsb (Z.eqb random_rowid) (i :: l) = true).
      { apply existsb_exists. exists random_rowid. split; trivial.
        apply Z.eqb_refl. }
      congruence.
    + intro H. apply Hle in H. lia.
Qed.


(** In a table filled from empty it is larger than every rowid, and the
    table stays without gaps. *)
Lemma new_rowid_gapless (random_rowid : Z) (ids : list Z) :
  gapless ids ->
  (forall i, In i ids -> i < sqlite.new_rowid random_rowid ids)
  /\ gapless (ids ++ [sqlite.new_rowid random_rowid ids]).
Proof.
  intro Hgap. destruct ids as [|i l].
  - split; [intros i []|].
    intros i j Hi Hij [<-|[]]. cbn in *. left. lia.
  - assert (sqlite.new_rowid random_rowid (i :: l)
            = fold_right Z.max i l + 1) as ->.
    { unfold sqlite.new_rowid. cbv zeta.
      destruct (fold_right Z.max i l <? sqlite.MAX_ROWID) eqn:Hlt;
        [reflexivity|].
      destruct ((0 <? random_rowid) && (random_rowid <=? sqlite.MAX_ROWID)
                && negb (existsb (Z.eqb random_rowid) (i :: l))) eqn:Hv;
        [|reflexivity].
      exfalso. apply Z.ltb_ge in Hlt.
      apply andb_true_iff in Hv. destruct Hv as [Hv Hnew].
      apply andb_true_iff in Hv. destruct Hv as [Hpos Hmax].
      apply Z.ltb_lt in Hpos. apply Z.leb_le in Hmax.
      apply negb_true_iff in Hnew.
      assert (Hin : In random_rowid (i :: l)).
      { apply (Hgap _ (fold_right Z.max i l)); [lia|lia|].
        apply fold_max_in. }
      assert (Ht : existsb (Z.eqb random_rowid) (i :: l) = true).
      { apply existsb_exists. exists random_rowid. split; trivial.
        apply Z.eqb_refl. }
      congruence. }
    split.
    + intros j Hj. apply fold_max_le in Hj. lia.
    + intros k j Hk Hkj Hj. apply in_app_or in Hj.
      apply in_or_app. destruct Hj as [Hj|[<-|[]]].
      * left. now apply (Hgap k j).
      * destruct (Z.eq_dec k (fold_right Z.max i l + 1)) as [->|Hne];
          [right; now left|].
        left. apply (Hgap k (fold_right Z.max i l)); [lia|lia|].
        apply fold_max_in.
Qed.

Section Insert.

Context {A : Type} (key : A -> Z).

Lemma in_insert_row (x y : A) (l : list A) :
  In y (sqlite.insert_row key x l) <-> y = x \/ In y l.
Proof.
  induction l as [|r l IH]; cbn [sqlite.insert_row].
  - cbn. intuition.
  - destruct (key x <? key r); cbn [In]; rewrite ?IH; intuition.
Qed.

Lemma insert_row_perm (x : A) (l : list A) :
  Permutation (sqlite.insert_row key x l) (x :: l).
Proof.
  induction l as [|r l IH]; cbn [sqlite.insert_row]; [reflexivity|].
  destruct (key x <? key r); [reflexivity|].
  rewrite IH. apply perm_swap.
Qed.

(** A row whose rowid is the largest goes last. *)
Lemma insert_row_last (x : A) (l : list A) :
  (forall r, In r l -> key r < key x) ->
  sqlite.insert_row key x l = (l ++ [x])%list.
Proof.
  induction l as [|r l IH]; intro H; cbn [sqlite.insert_row app];
    [reflexivity|].
  assert (Hr : (key x <? key r) = false)
    by (apply Z.ltb_ge; specialize (H r (or_introl eq_refl)); lia).
  rewrite Hr, IH; [reflexivity|]. intros r' Hr'. apply H. now right.
Qed.


Lemma NoDup_insert_row (x : A) (l : list A) :
  NoDup (map key l) -> ~ In (key x) (map key l) ->
  NoDup (map key (sqlite.insert_row key x l)).
Proof.
  intros Hnd Hnew.
  apply (Permutation_NoDup (l := map key (x :: l))).
  - symmetry. apply Permutation_map, insert_row_perm.
  - now constructor.
Qed.


End Insert.

(** [User.create] with an email that is not in the table keeps them too. *)
Lemma user_schema_create (d : Database) (u : User.t) :
  user_schema d ->
  ~ In (User.id u) (map User.id (user d)) ->
  (forall r, In r (user d) -> User.email r <> User.email u) ->
  user_schema (with_user (sqlite.insert_row User.id u (user d)) d).
Proof.
  intros [Hpk Huniq] Hid Hfresh. split.
  - cbn [user with_user]. now apply NoDup_insert_row.
  - intros r1 r2 H1 H2 Hr. cbn [user with_user] in H1, H2.
    apply in_insert_row in H1, H2.
    destruct H1 as [->|H1], H2 as [->|H2]; trivial.
    + symmetry in Hr. now elim (Hfresh r2 H2).
    + now elim (Hfresh r1 H1).
    + now apply Huniq.
Qed.

(** The row of a registration has the rowid of no row. *)
Lemma registered_fresh (rq : Request) (d : Database) :
  ~ In (User.id (registered rq d)) (map User.id (user d)).
Proof. apply new_rowid_fresh. Qed.

(** * The claims *)

(** ** C1: [borrowed_by] and [borrowed_at] are set together *)

(** The only write a handler makes to the book table is the save of a row
    with both fields set or both null. *)
Lemma book_after (r : route) (rq : Request) (d : Database) :
  book (database_after (handler r) rq d) = book d
  \/ exists b', consistent b'
                /\ book (database_after (handler r) rq d)
                   = save_row Book.id b' (book d).
Proof.
  unfold database_after.
  destruct r; cbn [handler].
  - rewrite serve_home. destruct (peewee.User_get _ d); now left.
  - rewrite serve_borrow_books. destruct (peewee.User_get _ d); now left.
  - rewrite serve_borrow_book.
    destruct (peewee.User_get _ d); [|now left].
    cbv zeta. destruct (sqlite.fits_integer book_id); [|now left].
    destruct (peewee.Book_select book_id d) as [b|]; [|now left].
    right. eexists. split; [|reflexivity]. split; discriminate.
  - rewrite serve_return_book.
    destruct (peewee.User_get _ d); [|now left].
    cbv zeta. destruct (sqlite.fits_integer book_id); [|now left].
    destruct (peewee.Book_select book_id d) as [b|]; [|now left].
    right. eexists. split; [|reflexivity]. split; reflexivity.
  - rewrite serve_logout. destruct (peewee.User_get _ d); now left.
  - now left.
  - rewrite serve_register. cbv zeta.
    repeat match goal with
           | |- context [if ?c then _ else _] => destruct c
           end; now left.
  - now left.
  - rewrite serve_login. cbv zeta.
    repeat match goal with
           | |- context [if ?c then _ else _] => destruct c
           end; try now left.
    destruct (peewee.User_get _ d); now left.
Qed.

Lemma books_consistent_step (r : route) (rq : Request) (d : Database) :
  books_consistent d ->
  books_consistent (database_after (handler r) rq d).
Proof.
  intros H b Hb.
  destruct (book_after r rq d) as [Heq|(b' & Hc & Heq)];
    rewrite Heq in Hb.
  - now apply H.
  - apply in_save_row in Hb. destruct Hb as [[-> _]|[Hin _]]; auto.
Qed.

(** What a [borrow_book] that returns its page has done: the book it
    found is in the table again, saved with the caller and the day. *)
Lemma borrow_book_completed
      (book_id : Z) (rq : Request) (d d' : Database) (caller : User.t)
      (bk : Book.t) (days : string) (cs : list (string * string)) :
  serve (server.borrow_book book_id) rq d
  = (Return (borrow_book_tpl caller bk days), cs, d') ->
  exists u b0,
    peewee.User_get (server.session_matches rq) d = Some u
    /\ sqlite.fits_integer book_id = true
    /\ peewee.Book_select book_id d = Some b0
    /\ caller = refreshed rq u
    /\ bk = Book.set_borrowed (Some (User.id u)) (Some (date_today rq)) b0
    /\ days = "30" /\ cs = []
    /\ d' = peewee.Book_save bk (peewee.User_save (refreshed rq u) d).
Proof.
  rewrite serve_borrow_book.
  destruct (peewee.User_get _ d) as [u|]; [|discriminate].
  cbv zeta.
  destruct (sqlite.fits_integer book_id); [|discriminate].
  destruct (peewee.Book_select book_id d) as [b0|]; [|discriminate].
  intro H. injection H as <- <- <- <- <-.
  exists u, b0. now repeat split.
Qed.

(** The same for a [return_book] that reaches its redirect to /home. *)
Lemma return_book_completed
      (book_id : Z) (rq : Request) (d d' : Database)
      (cs : list (string * string)) :
  serve (server.return_book book_id) rq d
  = (Raise (Redirect "/home"), cs, d') ->
  exists u b0,
    peewee.User_get (server.session_matches rq) d = Some u
    /\ sqlite.fits_integer book_id = true
    /\ peewee.Book_select book_id d = Some b0
    /\ cs = []
    /\ d' = peewee.Book_save (Book.set_borrowed None None b0)
                             (peewee.User_save (refreshed rq u) d).
Proof.
  rewrite serve_return_book.
  destruct (peewee.User_get _ d) as [u|]; [|discriminate].
  cbv zeta.
  destruct (sqlite.fits_integer book_id); [|discriminate].
  destruct (peewee.Book_select book_id d) as [b0|]; [|discriminate].
  intro H. injection H as <- <-.
  exists u, b0. now repeat split.
Qed.

(** A save of a row found under its id: the row is in the table, the
    rowids are the ones before, and every row of that id is the row
    saved. *)
Lemma Book_save_found (book_id : Z) (d d1 : Database) (b0 b : Book.t) :
  peewee.Book_select book_id d = Some b0 ->
  book d1 = book d -> Book.id b = Book.id b0 ->
  In b (book (peewee.Book_save b d1))
  /\ Book.id b = book_id
  /\ map Book.id (book (peewee.Book_save b d1)) = map Book.id (book d)
  /\ forall r, In r (book (peewee.Book_save b d1)) ->
               Book.id r = book_id -> r = b.
Proof.
  intros Hsel Hd1 Hid.
  destruct (Book_select_some _ _ _ Hsel) as [Hin Hid0].
  change (book (peewee.Book_save b d1))
    with (save_row Book.id b (book d1)).
  rewrite Hd1. split; [|split; [|split]].
  - apply (save_row_in Book.id _ (book d) b0); trivial. now symmetry.
  - congruence.
  - apply map_key_save_row.
  - intros r Hr Hrid. apply (in_save_row Book.id) in Hr.
    destruct Hr as [[-> _]|[_ Hne]]; [reflexivity|].
    exfalso. apply Hne. congruence.
Qed.

(** C1: along any sequence of requests, from a database in which every
    book has [borrowed_by] null exactly when [borrowed_at] is null, every
    book still has. A [borrow_book] that completes has found a book of
    the id; afterwards the table has the rowids it had, the book of the
    page is a row of it under that id, and every row of that id has both
    fields set, to the caller and to today's date. A [return_book] that
    completes has found a book of the id; afterwards the table has the
    rowids it had, a row of that id is in it, and every row of that id
    has both fields null. *)
Theorem borrowed_by_iff_borrowed_at :
  (forall reqs d,
      books_consistent d -> books_consistent (serve_all reqs d))
  /\ (forall book_id rq d caller bk days cs d',
         serve (server.borrow_book book_id) rq d
         = (Return (borrow_book_tpl caller bk days), cs, d') ->
         (exists b0, In b0 (book d) /\ Book.id b0 = book_id)
         /\ map Book.id (book d') = map Book.id (book d)
         /\ In bk (book d') /\ Book.id bk = book_id
         /\ forall b, In b (book d') -> Book.id b = book_id ->
                      Book.borrowed_by b = Some (User.id caller)
                      /\ Book.borrowed_at b = Some (date_today rq))
  /\ (forall book_id rq d cs d',
         serve (server.return_book book_id) rq d
         = (Raise (Redirect "/home"), cs, d') ->
         (exists b0, In b0 (book d) /\ Book.id b0 = book_id)
         /\ map Book.id (book d') = map Book.id (book d)
         /\ (exists b, In b (book d') /\ Book.id b = book_id)
         /\ forall b, In b (book d') -> Book.id b = book_id ->
                      Book.borrowed_by b = None /\ Book.borrowed_at b = None).
Proof.
  split; [|split].
  - induction reqs as [|[r rq] reqs IH]; intros d Hd; [exact Hd|].
    cbn [serve_all]. apply IH. now apply books_consistent_step.
  - intros book_id rq d caller bk days cs d' Hserve.
    apply borrow_book_completed in Hserve.
    destruct Hserve as (u & b0 & _ & _ & Hsel & -> & Hbk & _ & _ & ->).
    destruct (Book_save_found book_id d (peewee.User_save (refreshed rq u) d)
                              b0 bk Hsel eq_refl)
      as (Hin & Hid & Hids & Honly); [now rewrite Hbk|].
    split; [exists b0; now apply Book_select_some|].
    split; [exact Hids|]. split; [exact Hin|]. split; [exact Hid|].
    intros b Hb Hbid. rewrite (Honly b Hb Hbid), Hbk. now split.
  - intros book_id rq d cs d' Hserve.
    apply return_book_completed in Hserve.
    destruct Hserve as (u & b0 & _ & _ & Hsel & _ & ->).
    destruct (Book_save_found book_id d (peewee.User_save (refreshed rq u) d)
                              b0 (Book.set_borrowed None None b0)
                              Hsel eq_refl eq_refl)
      as (Hin & Hid & Hids & Honly).
    split; [exists b0; now apply Book_select_some|].
    split; [exact Hids|]. split; [eexists; split; eassumption|].
    intros b Hb Hbid. rewrite (Honly b Hb Hbid). now split.
Qed.

Lemma sample_books_consistent : books_consistent sample.db.
Proof.
  intros b [<-|[<-|[<-|[]]]]; split; try reflexivity; discriminate.
Qed.

Lemma borrowed_by_iff_borrowed_at_witness :
  books_consistent (serve_all sample_requests sample.db)
  /\ (In (Book.set_borrowed (Some 1) (Some sample.jan15) sample.good_omens)
          (book (database_after
                   (server.borrow_book 1)
                   (sample.session sample.ayax 1500 sample.jan15)
                   sample.db))
      /\ forall b,
          In b (book (database_after
                        (server.borrow_book 1)
                        (sample.session sample.ayax 1500 sample.jan15)
                        sample.db)) ->
          Book.id b = 1 ->
          Book.borrowed_by b = Some 1
          /\ Book.borrowed_at b = Some sample.jan15)
  /\ ((exists b,
          In b (book (database_after
                        (server.return_book 2)
                        (sample.session sample.ayax 1500 sample.jan15)
                        sample.db))
          /\ Book.id b = 2)
      /\ forall b,
          In b (book (database_after
                        (server.return_book 2)
                        (sample.session sample.ayax 1500 sample.jan15)
                        sample.db)) ->
          Book.id b = 2 ->
          Book.borrowed_by b = None /\ Book.borrowed_at b = None).
Proof.
  split; [|split].
  - apply (proj1 borrowed_by_iff_borrowed_at). exact sample_books_consistent.
  - destruct (proj1 (proj2 borrowed_by_iff_borrowed_at)
                    1 (sample.session sample.ayax 1500 sample.jan15) sample.db
                    _ _ _ _ _ eq_refl) as (_ & _ & Hin & _ & Hall).
    split; [exact Hin|exact Hall].
  - destruct (proj2 (proj2 borrowed_by_iff_borrowed_at)
                    2 (sample.session sample.ayax 1500 sample.jan15) sample.db
                    _ _ eq_refl) as (_ & _ & Hex & Hall).
    split; [exact Hex|exact Hall].
Defined.

(** ** C2: [Book.return_date] *)

(** C2, as stated, fails: a book borrowed on 9999-12-31 has a well-formed
    [borrowed_at], and [return_date] raises [OverflowError] instead of
    returning [borrowed_at] plus 30 days. *)
Lemma return_date_overflows :
  datetime.valid datetime.MAXORDINAL
  /\ Book.borrowed_at borrowed_on_last_day = Some datetime.MAXORDINAL
  /\ Book.return_date sample.jan15 borrowed_on_last_day = Raise OverflowError
  /\ Book.return_date sample.jan15 borrowed_on_last_day
     <> Return (datetime.MAXORDINAL + constants.ALLOWED_BORROW_DAYS).
Proof.
  repeat split; try reflexivity; try discriminate.
Qed.

(** C2, amended: [return_date] returns today's date when [borrowed_at] is
    null; for a [borrowed_at] whose thirtieth day after still is a date
    (at most 9999-12-31) it returns [borrowed_at] plus exactly
    [ALLOWED_BORROW_DAYS] = 30 days; for a later [borrowed_at] it raises
    [OverflowError]. *)
Theorem return_date_correct (today : datetime.date) (b : Book.t) :
  constants.ALLOWED_BORROW_DAYS = 30
  /\ (Book.borrowed_at b = None -> Book.return_date today b = Return today)
  /\ (forall d, Book.borrowed_at b = Some d -> datetime.valid d ->
                d + 30 <= datetime.MAXORDINAL ->
                Book.return_date today b = Return (d + 30))
  /\ (forall d, Book.borrowed_at b = Some d ->
                datetime.MAXORDINAL < d + 30 ->
                Book.return_date today b = Raise OverflowError).
Proof.
  unfold Book.return_date, datetime.date_add, datetime.valid.
  split; [reflexivity|]. split; [|split].
  - intros ->. reflexivity.
  - intros d -> Hd Hmax. change constants.ALLOWED_BORROW_DAYS with 30.
    cbv zeta.
    replace (0 <? d + 30) with true by (symmetry; apply Z.ltb_lt; lia).
    replace (d + 30 <=? datetime.MAXORDINAL) with true
      by (symmetry; apply Z.leb_le; lia).
    reflexivity.
  - intros d -> Hmax. change constants.ALLOWED_BORROW_DAYS with 30.
    cbv zeta.
    replace (d + 30 <=? datetime.MAXORDINAL) with false
      by (symmetry; apply Z.leb_gt; lia).
    now rewrite andb_false_r.
Qed.

Lemma return_date_correct_witness :
  Book.return_date sample.jan15 sample.good_omens = Return sample.jan15
  /\ Book.return_date sample.jan15 sample.animal_farm
     = Return (sample.jan15 + 30)
  /\ Book.return_date sample.jan15 borrowed_on_last_day = Raise OverflowError.
Proof.
  split; [|split].
  - apply (proj1 (proj2 (return_date_correct sample.jan15 sample.good_omens))).
    reflexivity.
  - apply (proj1 (proj2 (proj2
             (return_date_correct sample.jan15 sample.animal_farm)))).
    + reflexivity.
    + unfold datetime.valid, sample.jan15, datetime.MAXORDINAL. lia.
    + unfold sample.jan15, datetime.MAXORDINAL. lia.
  - apply (proj2 (proj2 (proj2
             (return_date_correct sample.jan15 borrowed_on_last_day)))
             datetime.MAXORDINAL).
    + reflexivity.
    + unfold datetime.MAXORDINAL. lia.
Defined.

(** ** C3: the freshness boundary of the resolver *)

(** C3: for the row of the session (email and password cookies match,
    [logged_in] true, email unique in the table), a [last_seen] exactly
    3600 seconds before the current time is rejected with a redirect to
    the login page and no write, although the refreshed row would pass
    the same test; a [last_seen] 3599 seconds before is accepted, and the
    row is refreshed only then. *)
Theorem get_logged_in_user_boundary
        (rq : Request) (d : Database) (u : User.t) :
  unique_email d -> In u (user d) ->
  get_cookie "user-email" rq = Some (User.email u) ->
  get_cookie "password" rq = Some (User.password u) ->
  User.logged_in u = true ->
  (User.last_seen u = Some (time_time rq - 3600) ->
   run (server.get_logged_in_user rq) d = (Raise (Redirect "/login"), [], d)
   /\ server.session_matches rq (refreshed rq u) = true)
  /\ (User.last_seen u = Some (time_time rq - 3599) ->
      run (server.get_logged_in_user rq) d
      = (Return (refreshed rq u), [], peewee.User_save (refreshed rq u) d)
      /\ User.last_seen (refreshed rq u) = Some (time_time rq)).
Proof.
  intros Huniq Hin He Hp Hlog.
  rewrite run_get_logged_in_user, (User_get_session rq d u Huniq Hin He).
  split; intro Hseen.
  - assert (server.session_matches rq u = false) as ->.
    { destruct (server.session_matches rq u) eqn:Hm; [|reflexivity].
      apply session_matches_iff in Hm.
      destruct Hm as (_ & _ & _ & seen & Hs & Hlt).
      rewrite Hseen in Hs. injection Hs as <-. lia. }
    split; [reflexivity|].
    apply session_matches_iff. repeat split; trivial.
    exists (time_time rq). split; [reflexivity|lia].
  - assert (server.session_matches rq u = true) as ->.
    { apply session_matches_iff. repeat split; trivial.
      exists (time_time rq - 3599). split; [trivial|lia]. }
    split; reflexivity.
Qed.

Lemma get_logged_in_user_boundary_witness :
  run (server.get_logged_in_user
         (sample.session sample.ayax 4600 sample.jan15)) sample.db
  = (Raise (Redirect "/login"), [], sample.db)
  /\ fst (fst (run (server.get_logged_in_user
                      (sample.session sample.ayax 4599 sample.jan15))
                   sample.db))
     = Return (User.set_last_seen (Some 4599) sample.ayax).
Proof.
  split.
  - apply (proj1 (get_logged_in_user_boundary
                    (sample.session sample.ayax 4600 sample.jan15)
                    sample.db sample.ayax sample_unique_email
                    (or_introl eq_refl) eq_refl eq_refl eq_refl)).
    reflexivity.
  - rewrite (proj1 (proj2 (get_logged_in_user_boundary
                    (sample.session sample.ayax 4599 sample.jan15)
                    sample.db sample.ayax sample_unique_email
                    (or_introl eq_refl) eq_refl eq_refl eq_refl)
                    eq_refl)).
    reflexivity.
Defined.

(** ** C4: [borrow_book] *)

(** C4, as stated, fails on "no state change": with a valid session and
    no book 9, [borrow_book] answers 404, and the database is not the one
    before, because the resolver has already written the caller's
    [last_seen]. *)
Lemma borrow_book_not_found_writes :
  (forall b, In b (book sample.db) -> Book.id b <> 9)
  /\ fst (fst (serve (server.borrow_book 9)
                     (sample.session sample.ayax 1500 sample.jan15)
                     sample.db))
     = Raise (HTTPError 404 "Book not found.")
  /\ database_after (server.borrow_book 9)
                    (sample.session sample.ayax 1500 sample.jan15) sample.db
     <> sample.db.
Proof.
  split; [|split].
  - intros b [<-|[<-|[<-|[]]]]; discriminate.
  - reflexivity.
  - discriminate.
Qed.

(** C4, amended: for a book id that is an integer of sqlite (from -2^63
    to 2^63 - 1) and a request the resolver authenticates as [caller],
    leaving the database [d1] (whose books are those before):
    when no book has the id, [borrow_book] fails with 404 "Book not
    found." and the database is [d1], so no book has changed and the only
    write is the resolver's refresh of the caller's [last_seen];
    when a book has the id, whoever borrowed it before, [borrow_book]
    saves that row with [borrowed_by] the caller and [borrowed_at]
    today's date, its other columns as they were, and returns the page
    of that book with the 30 days; the saved row is in the table
    afterwards, and is every row of that id. *)
Theorem borrow_book_outcome
        (book_id : Z) (rq : Request) (d d1 : Database) (caller : User.t) :
  sqlite.MIN_INTEGER <= book_id <= sqlite.MAX_ROWID ->
  run (server.get_logged_in_user rq) d = (Return caller, [], d1) ->
  book d1 = book d
  /\ ((forall b, In b (book d) -> Book.id b <> book_id) ->
      serve (server.borrow_book book_id) rq d
      = (Raise (HTTPError 404 "Book not found."), [], d1))
  /\ (forall b0, In b0 (book d) -> Book.id b0 = book_id ->
      exists b b',
        In b (book d) /\ Book.id b = book_id
        /\ peewee.Book_get book_id d = Return (Some b)
        /\ serve (server.borrow_book book_id) rq d
           = (Return (borrow_book_tpl caller b' "30"), [],
              peewee.Book_save b' d1)
        /\ Book.borrowed_by b' = Some (User.id caller)
        /\ Book.borrowed_at b' = Some (date_today rq)
        /\ same_catalogue_entry b b'
        /\ In b' (book (peewee.Book_save b' d1))
        /\ forall r, In r (book (peewee.Book_save b' d1)) ->
                     Book.id r = book_id -> r = b').
Proof.
  intros Hfits Hres. apply fits_integer_iff in Hfits.
  apply resolved in Hres.
  destruct Hres as (u & Hget & -> & ->).
  split; [reflexivity|]. split.
  - intro Hnone. apply Book_select_none_iff in Hnone.
    now rewrite serve_borrow_book, Hget, Hfits, Hnone.
  - intros b0 Hin0 Hid0.
    destruct (Book_select_of book_id d b0 Hin0 Hid0) as [b Hb].
    destruct (Book_select_some _ _ _ Hb) as [Hin Hid].
    exists b, (Book.set_borrowed (Some (User.id u)) (Some (date_today rq)) b).
    destruct (Book_save_found
                book_id d (peewee.User_save (refreshed rq u) d) b
                (Book.set_borrowed (Some (User.id u)) (Some (date_today rq)) b)
                Hb eq_refl eq_refl) as (Hin' & _ & _ & Honly).
    split; [exact Hin|]. split; [exact Hid|].
    split; [unfold peewee.Book_get; now rewrite Hfits, Hb|].
    split; [now rewrite serve_borrow_book, Hget, Hfits, Hb|].
    split; [reflexivity|]. split; [reflexivity|].
    split; [now repeat split|]. split; [exact Hin'|exact Honly].
Qed.

Lemma borrow_book_outcome_witness :
  serve (server.borrow_book 9)
        (sample.session sample.ayax 1500 sample.jan15) sample.db
  = (Raise (HTTPError 404 "Book not found."), [],
     peewee.User_save (User.set_last_seen (Some 1500) sample.ayax) sample.db)
  /\ exists b b',
      peewee.Book_get 2 sample.db = Return (Some b)
      /\ Book.borrowed_by b = Some 1
      /\ fst (fst (serve (server.borrow_book 2)
                         (sample.session sample.mustafa 1500 sample.jan15)
                         (peewee.User_save
                            (User.set_last_seen (Some 1400)
                               (User.set_logged_in true sample.mustafa))
                            sample.db)))
         = Return (borrow_book_tpl
                     (User.set_last_seen (Some 1500)
                        (User.set_logged_in true sample.mustafa))
                     b' "30")
      /\ Book.borrowed_by b' = Some 2
      /\ Book.borrowed_at b' = Some sample.jan15.
Proof.
  split.
  - apply (proj1 (proj2 (borrow_book_outcome
                           9 (sample.session sample.ayax 1500 sample.jan15)
                           sample.db _ _ ltac:(vm_compute; intuition discriminate)
                           eq_refl))).
    intros b [<-|[<-|[<-|[]]]]; discriminate.
  - destruct (proj2 (proj2 (borrow_book_outcome
                              2
                              (sample.session sample.mustafa 1500 sample.jan15)
                              (peewee.User_save
                                 (User.set_last_seen (Some 1400)
                                    (User.set_logged_in true sample.mustafa))
                                 sample.db) _ _
                              ltac:(vm_compute; intuition discriminate)
                              eq_refl))
                    sample.animal_farm (or_intror (or_introl eq_refl))
                    eq_refl)
      as (b & b' & _ & _ & Hb & Hserve & Hby & Hat & _).
    exists b, b'. split; [exact Hb|].
    split; [now injection Hb as <-|].
    split; [now rewrite Hserve|]. split; [exact Hby|exact Hat].
Defined.

(** ** C5: the list of books to borrow *)

Lemma filter_all {A} (f : A -> bool) (l : list A) :
  (forall x, In x l -> f x = true) -> filter f l = l.
Proof.
  induction l as [|a l IH]; intro H; cbn [filter]; [reflexivity|].
  rewrite (H a (or_introl eq_refl)), IH; [reflexivity|].
  intros x Hx. apply H. now right.
Qed.

Lemma has_rows_iff (d : Database) (b : Book.t) :
  has_rows d b = true <-> exists a, written_by d b a.
Proof.
  rewrite <- joined_author_names_nonempty. unfold has_rows.
  destruct (joined_author_names d b); split; congruence.
Qed.

(** The rows of the list, whatever the authors of the books are: the
    books with a joined author row that the caller has not borrowed. *)
Lemma in_borrow_books (rq : Request) (d : Database) (u : User.t)
      (b : Book.t) (names : string) :
  let d1 := peewee.User_save (refreshed rq u) d in
  In (b, names)
     (filter (fun row => borrowed_by_ne (fst row) (refreshed rq u))
             (select_books d1)) <->
  In b (book d)
  /\ (exists a, written_by d b a)
  /\ Book.borrowed_by b <> Some (User.id (refreshed rq u))
  /\ names = String.concat "," (joined_author_names d1 b).
Proof.
  intro d1. unfold select_books.
  rewrite filter_In, in_order_by_title, in_group_by_id.
  cbn [fst]. rewrite borrowed_by_ne_iff, joined_author_names_nonempty.
  change (book d1) with (book d).
  change (written_by d1 b) with (written_by d b).
  intuition.
Qed.

(** The hypothesis of the theorem below is needed: Beowulf is in the
    book table, borrowed by nobody and linked to no author; the INNER
    JOIN on author leaves it without a row, so it is not in the list
    shown to Ayax. *)
Lemma borrow_books_misses_book_without_author :
  In sample.anonymous (book sample.db)
  /\ Book.borrowed_by sample.anonymous = None
  /\ exists books caller d1,
      serve server.borrow_books
            (sample.session sample.ayax 1500 sample.jan15) sample.db
      = (Return (borrow_books_tpl books caller), [], d1)
      /\ forall names, ~ In (sample.anonymous, names) books.
Proof.
  split; [right; right; now left|]. split; [reflexivity|].
  do 3 eexists. split; [reflexivity|].
  intros names [H|[]]. discriminate H.
Qed.

(** C5: in a database where every book is linked to an author, as the
    import leaves it and the handlers keep it, [borrow_books] gives an
    authenticated caller all the books whose [borrowed_by] is not the
    caller, each once and in the order of their titles, each annotated
    with the comma-joined names of its authors. So a book borrowed by a
    user other than the caller is in the caller's list, a book nobody
    has borrowed is in every caller's list, and a book the caller has
    borrowed is not in the caller's list. *)
Theorem borrow_books_listing
        (rq : Request) (d d1 : Database) (caller : User.t)
        (books : list (Book.t * string)) (cs : list (string * string)) :
  (forall b, In b (book d) -> exists a, written_by d b a) ->
  serve server.borrow_books rq d
  = (Return (borrow_books_tpl books caller), cs, d1) ->
  StronglySorted title_le books
  /\ Permutation (map fst books)
                 (filter (fun b => borrowed_by_ne b caller) (book d))
  /\ (forall b names,
         In (b, names) books <->
         In b (book d)
         /\ Book.borrowed_by b <> Some (User.id caller)
         /\ names = String.concat "," (joined_author_names d1 b))
  /\ (forall b n,
         In n (joined_author_names d1 b) <->
         exists a, written_by d b a /\ Author.name a = n)
  /\ (forall b x,
         In b (book d) -> Book.borrowed_by b = Some x ->
         x <> User.id caller -> exists names, In (b, names) books)
  /\ (forall b,
         In b (book d) -> Book.borrowed_by b = None ->
         exists names, In (b, names) books)
  /\ (forall b names,
         In (b, names) books -> Book.borrowed_by b <> Some (User.id caller)).
Proof.
  intro Hauthors. rewrite serve_borrow_books.
  destruct (peewee.User_get _ d) as [u|]; [|discriminate].
  cbv zeta. intro H. injection H as <- <- _ <-.
  set (d1 := peewee.User_save (refreshed rq u) d).
  assert (Hin : forall b names,
             In (b, names)
                (filter (fun row => borrowed_by_ne (fst row) (refreshed rq u))
                        (select_books d1)) <->
             In b (book d)
             /\ Book.borrowed_by b <> Some (User.id (refreshed rq u))
             /\ names = String.concat "," (joined_author_names d1 b)).
  { intros b names.
    pose proof (in_borrow_books rq d u b names) as Hiff.
    cbv zeta in Hiff. fold d1 in Hiff. rewrite Hiff.
    split; [tauto|].
    intros (Hb & Hne & Hnames). pose proof (Hauthors b Hb). tauto. }
  split; [|split; [|split; [|split; [|split; [|split]]]]].
  - apply filter_sorted, order_by_title_sorted.
  - rewrite (map_fst_filter (fun b => borrowed_by_ne b (refreshed rq u))).
    apply filter_perm.
    unfold select_books.
    rewrite (Permutation_map fst (order_by_title_perm (group_by_id d1))).
    rewrite map_fst_group_by_id. change (book d1) with (book d).
    rewrite filter_all; [reflexivity|].
    intros b Hb. apply has_rows_iff. exact (Hauthors b Hb).
  - exact Hin.
  - intros b n. apply (in_joined_author_names d1 b n).
  - intros b x Hb Hby Hx. eexists. apply Hin.
    split; [exact Hb|]. split; [|reflexivity]. congruence.
  - intros b Hb Hby. eexists. apply Hin.
    split; [exact Hb|]. split; [|reflexivity]. congruence.
  - intros b names Hb. now apply Hin in Hb.
Qed.

Lemma sample_catalogued_authors (b : Book.t) :
  In b (book sample.catalogued) ->
  exists a, written_by sample.catalogued b a.
Proof.
  intros [<-|[<-|[]]].
  - exists sample.gaiman. split; [right; now left|].
    exists (BookAuthorThrough.Build 1 1 2). split; [now left|now split].
  - exists sample.orwell. split; [now left|].
    exists (BookAuthorThrough.Build 3 2 1).
    split; [right; right; now left|now split].
Qed.

Lemma borrow_books_listing_witness :
  (exists names,
      In (sample.animal_farm, names)
         (filter (fun row => borrowed_by_ne
                               (fst row)
                               (User.set_last_seen
                                  (Some 1500)
                                  (User.set_logged_in true sample.mustafa)))
                 (select_books
                    (peewee.User_save
                       (User.set_last_seen
                          (Some 1500)
                          (User.set_logged_in true sample.mustafa))
                       sample.catalogued))))
  /\ Permutation
       (map fst
            (filter (fun row => borrowed_by_ne
                                  (fst row)
                                  (User.set_last_seen (Some 1500) sample.ayax))
                    (select_books
                       (peewee.User_save
                          (User.set_last_seen (Some 1500) sample.ayax)
                          sample.catalogued))))
       [sample.good_omens].
Proof.
  split.
  - apply (proj1 (proj2 (proj2 (proj2 (proj2
             (borrow_books_listing
                (sample.session sample.mustafa 1500 sample.jan15)
                (peewee.User_save
                   (User.set_last_seen
                      (Some 1400) (User.set_logged_in true sample.mustafa))
                   sample.catalogued)
                _ _ _ _ sample_catalogued_authors eq_refl)))))
             sample.animal_farm 1).
    + right. now left.
    + reflexivity.
    + discriminate.
  - apply (proj1 (proj2
             (borrow_books_listing
                (sample.session sample.ayax 1500 sample.jan15)
                sample.catalogued
                _ _ _ _ sample_catalogued_authors eq_refl))).
Defined.

(** ** C6: login *)



(** ** C7: registering an email that is taken *)

(** C7: when the submitted email is the email of a row of the user
    table, [register] renders the form with the submitted values and an
    error, sets no cookie and leaves the database as it was, so no second
    row with that email appears; when the four fields are filled in, the
    error names the email as already registered and points to the login
    page. *)
Theorem register_existing_email (rq : Request) (d : Database) :
  (exists u, In u (user d) /\ User.email u = forms_get "email" rq) ->
  (exists msg,
      msg <> ""
      /\ serve server.register rq d
         = (Return (register_tpl
                      (RegisterForm.Build
                         (forms_get "email" rq) (forms_get "password" rq)
                         (forms_get "first_name" rq)
                         (forms_get "last_name" rq) msg)),
            [], d))
  /\ (forms_get "first_name" rq <> "" -> forms_get "last_name" rq <> "" ->
      forms_get "email" rq <> "" -> forms_get "password" rq <> "" ->
      serve server.register rq d
      = (Return (register_tpl
                   (RegisterForm.Build
                      (forms_get "email" rq) (forms_get "password" rq)
                      (forms_get "first_name" rq) (forms_get "last_name" rq)
                      ("User with email " ++ forms_get "email" rq
                       ++ " already registered. Please <a href='login'/>login</a> instead"))),
         [], d)).
Proof.
  intros (u & Hin & He).
  assert (Hex : existsb (fun r => String.eqb (User.email r)
                                             (forms_get "email" rq))
                        (user d) = true).
  { apply existsb_exists. exists u. split; trivial. now apply String.eqb_eq. }
  rewrite serve_register. cbv zeta. rewrite Hex. split.
  - repeat match goal with
           | |- context [if ?c then _ else _] => destruct c
           end;
      eexists; (split; [|reflexivity]); discriminate.
  - intros H1 H2 H3 H4. apply String.eqb_neq in H1, H2, H3, H4.
    now rewrite H1, H2, H3, H4.
Qed.

Lemma register_existing_email_witness :
  serve server.register mustafa_registers_again sample.db
  = (Return (register_tpl
               (RegisterForm.Build
                  "mustafa.sanli@gmail.com" "abcd" "M" "S"
                  "User with email mustafa.sanli@gmail.com already registered. Please <a href='login'/>login</a> instead")),
     [], sample.db).
Proof.
  apply (proj2 (register_existing_email mustafa_registers_again sample.db
                  (ex_intro _ sample.mustafa
                            (conj (or_intror (or_introl eq_refl)) eq_refl))));
    discriminate.
Defined.

(** ** C8: the order of the checks of [register] *)

(** C8: when at least one of first_name, last_name, email, password is
    submitted empty, there is a first empty one in that order (the fields
    before it are filled in), and [register] renders the form with the
    message of that field and the four submitted values as they came,
    creates no user, writes nothing and sets no cookie. *)
Theorem register_first_missing_field (rq : Request) (d : Database) :
  (exists f, In f required.order /\ required.submitted rq f = "") ->
  exists before f after,
    required.order = (before ++ f :: after)%list
    /\ (forall g, In g before -> required.submitted rq g <> "")
    /\ required.submitted rq f = ""
    /\ serve server.register rq d
       = (Return (register_tpl
                    (RegisterForm.Build
                       (forms_get "email" rq) (forms_get "password" rq)
                       (forms_get "first_name" rq) (forms_get "last_name" rq)
                       (required.message f))),
          [], d).
Proof.
  intros (f0 & Hin0 & Hf0).
  rewrite serve_register. cbv zeta.
  destruct (String.eqb_spec (forms_get "first_name" rq) "") as [H1|H1].
  { exists [], required.first_name, [required.last_name; required.email;
                                     required.password].
    repeat split; trivial. intros g []. }
  destruct (String.eqb_spec (forms_get "last_name" rq) "") as [H2|H2].
  { exists [required.first_name], required.last_name,
           [required.email; required.password].
    repeat split; trivial. intros g [<-|[]]. exact H1. }
  destruct (String.eqb_spec (forms_get "email" rq) "") as [H3|H3].
  { exists [required.first_name; required.last_name], required.email,
           [required.password].
    repeat split; trivial. intros g [<-|[<-|[]]]; assumption. }
  destruct (String.eqb_spec (forms_get "password" rq) "") as [H4|H4].
  { exists [required.first_name; required.last_name; required.email],
           required.password, [].
    repeat split; trivial. intros g [<-|[<-|[<-|[]]]]; assumption. }
  exfalso.
  destruct Hin0 as [<-|[<-|[<-|[<-|[]]]]]; cbn in Hf0; contradiction.
Qed.

Lemma register_first_missing_field_witness :
  serve server.register nameless_registration sample.db
  = (Return (register_tpl
               (RegisterForm.Build "" "abcd" "M" ""
                                   "Please enter a Last Name.")),
     [], sample.db).
Proof.
  destruct (register_first_missing_field
              nameless_registration sample.db
              (ex_intro _ required.email
                        (conj (or_intror (or_intror (or_introl eq_refl)))
                              eq_refl)))
    as (before & f & after & Horder & Hbefore & Hf & Hserve).
  rewrite Hserve. destruct f; try reflexivity; exfalso.
  - discriminate Hf.
  - destruct before as [|g1 [|g2 before]];
      [discriminate Horder| discriminate Horder|].
    injection Horder as <- <- _.
    apply (Hbefore required.last_name); [right; now left|reflexivity].
  - destruct before as [|g1 [|g2 before]];
      [discriminate Horder| discriminate Horder|].
    injection Horder as <- <- _.
    apply (Hbefore required.last_name); [right; now left|reflexivity].
Defined.

(** ** C9: what [borrow_book] and [return_book] leave alone *)

(** C9, as stated, fails on "every User row is unchanged": both handlers
    start with the resolver, which writes the caller's [last_seen]. *)
Lemma borrow_return_write_user :
  In sample.ayax (user sample.db)
  /\ ~ In sample.ayax
        (user (database_after (server.borrow_book 1)
                 (sample.session sample.ayax 1500 sample.jan15) sample.db))
  /\ ~ In sample.ayax
        (user (database_after (server.return_book 2)
                 (sample.session sample.ayax 1500 sample.jan15) sample.db)).
Proof.
  split; [now left|].
  split; intros [H|[H|[]]]; discriminate H.
Qed.

Lemma user_after_resolver (rq : Request) (d : Database) (u : User.t) :
  primary_keys d ->
  peewee.User_get (server.session_matches rq) d = Some u ->
  Forall2 (fun r r' =>
             r' = r \/ (server.session_matches rq r = true
                        /\ r' = refreshed rq r))
          (user d) (user (peewee.User_save (refreshed rq u) d)).
Proof.
  intros [Hpk _] Hget. destruct (User_get_some _ _ _ Hget) as [Hin Hm].
  apply (save_row_Forall2 User.id).
  - intros r Hr Hid. right.
    assert (r = u) as -> by (apply (NoDup_key_inj User.id (user d)); trivial).
    now split.
  - intros r _ _. now left.
Qed.

Lemma book_after_save (book_id : Z) (d : Database) (b : Book.t)
      (by_ : option Z) (at_ : option datetime.date) :
  primary_keys d ->
  peewee.Book_select book_id d = Some b ->
  Forall2 (fun r r' =>
             same_catalogue_entry r r' /\ (Book.id r <> book_id -> r' = r))
          (book d)
          (save_row Book.id (Book.set_borrowed by_ at_ b) (book d)).
Proof.
  intros [_ Hpk] Hget. destruct (Book_select_some _ _ _ Hget) as [Hin Hid].
  apply (save_row_Forall2 Book.id).
  - intros r Hr Hrid.
    assert (r = b) as -> by (apply (NoDup_key_inj Book.id (book d)); trivial).
    split; [now repeat split|]. intro Hne. now elim Hne.
  - intros r _ _. split; [now repeat split|reflexivity].
Qed.

(** C9, amended: [borrow_book] and [return_book] of a book id leave the
    author table and the author associations as they are; every book keeps
    its id, title, publication_year, average_rating, ratings_count and
    image_url, and a book of another id keeps all its fields; every User
    row is unchanged, except that the row of the authenticated caller has
    its [last_seen] set to the current time by the resolver. *)
Theorem borrow_return_frame
        (h : Request -> M page) (book_id : Z) (rq : Request) (d : Database) :
  primary_keys d ->
  h = server.borrow_book book_id \/ h = server.return_book book_id ->
  author (database_after h rq d) = author d
  /\ book_author_through (database_after h rq d) = book_author_through d
  /\ Forall2 (fun b b' =>
                same_catalogue_entry b b' /\ (Book.id b <> book_id -> b' = b))
             (book d) (book (database_after h rq d))
  /\ Forall2 (fun u u' =>
                u' = u \/ (server.session_matches rq u = true
                           /\ u' = User.set_last_seen (Some (time_time rq)) u))
             (user d) (user (database_after h rq d)).
Proof.
  intros Hpk Hh.
  assert (Hbooks : Forall2 (fun b b' =>
                     same_catalogue_entry b b'
                     /\ (Book.id b <> book_id -> b' = b)) (book d) (book d)).
  { apply Forall2_same. intros b _. split; [now repeat split|reflexivity]. }
  assert (Husers : Forall2 (fun u u' : User.t =>
                     u' = u \/ (server.session_matches rq u = true
                                /\ u' = refreshed rq u)) (user d) (user d)).
  { apply Forall2_same. intros u _. now left. }
  unfold database_after.
  destruct Hh as [-> | ->];
    [rewrite serve_borrow_book | rewrite serve_return_book];
    (destruct (peewee.User_get _ d) as [u|] eqn:Hget;
     [|cbn [snd]; split; [reflexivity|]; split; [reflexivity|];
       split; assumption]);
    cbv zeta;
    (destruct (sqlite.fits_integer book_id);
     [destruct (peewee.Book_select book_id d) as [b|] eqn:Hb|]);
    cbn [snd];
    (split; [reflexivity|]; split; [reflexivity|]; split;
     [|now apply user_after_resolver]);
    try exact Hbooks;
    apply (book_after_save book_id d b); assumption.
Qed.

Lemma borrow_return_frame_witness :
  Forall2 (fun b b' => same_catalogue_entry b b' /\ (Book.id b <> 1 -> b' = b))
          (book sample.db)
          (book (database_after (server.borrow_book 1)
                   (sample.session sample.ayax 1500 sample.jan15) sample.db))
  /\ Forall2 (fun u u' =>
                u' = u
                \/ (server.session_matches
                      (sample.session sample.ayax 1500 sample.jan15) u = true
                    /\ u' = User.set_last_seen (Some 1500) u))
             (user sample.db)
             (user (database_after (server.return_book 2)
                      (sample.session sample.ayax 1500 sample.jan15)
                      sample.db)).
Proof.
  split.
  - apply (borrow_return_frame (server.borrow_book 1) 1
             (sample.session sample.ayax 1500 sample.jan15) sample.db
             sample_primary_keys (or_introl eq_refl)).
  - apply (borrow_return_frame (server.return_book 2) 2
             (sample.session sample.ayax 1500 sample.jan15) sample.db
             sample_primary_keys (or_intror eq_refl)).
Defined.

(** ** C10: after logout *)

Lemma ended_ext (e p : string) (d d' : Database) :
  user d' = user d -> ended e p d -> ended e p d'.
Proof.
  unfold ended, user_schema, unique_email. intros ->. trivial.
Qed.

Lemma ended_save (e p : string) (d : Database) (u u' : User.t) :
  ended e p d -> In u (user d) ->
  User.id u' = User.id u -> User.email u' = User.email u ->
  User.email u <> e ->
  ended e p (peewee.User_save u' d).
Proof.
  intros (Hs & (r0 & Hr0 & He0 & Hp0) & Hout) Hin Hid He Hne.
  split; [now apply (user_schema_save d u)|]. split.
  - exists r0. split; [|now split].
    apply (save_row_keep User.id); trivial.
    intro Hk. apply Hne. rewrite <- He0. f_equal. symmetry.
    apply (NoDup_key_inj User.id (user d)); trivial; [apply Hs|congruence].
  - intros r Hr Her. apply (in_save_row User.id) in Hr.
    destruct Hr as [[-> _]|[Hr _]]; [congruence|now apply Hout].
Qed.

Lemma ended_rejects (e p : string) (d : Database) (rq : Request) :
  ended e p d -> get_cookie "user-email" rq = Some e ->
  peewee.User_get (server.session_matches rq) d = None.
Proof.
  intros (_ & _ & Hout) Hc. apply find_none_iff. intros u Hu.
  destruct (server.session_matches rq u) eqn:Hm; [|reflexivity].
  apply session_matches_iff in Hm. destruct Hm as (He & _ & Hlog & _).
  rewrite Hout in Hlog; [discriminate|trivial|congruence].
Qed.

Lemma ended_resolver (e p : string) (d : Database) (rq : Request)
      (u : User.t) :
  ended e p d ->
  peewee.User_get (server.session_matches rq) d = Some u ->
  ended e p (peewee.User_save (refreshed rq u) d).
Proof.
  intros Hend Hget. destruct (User_get_some _ _ _ Hget) as [Hin Hm].
  apply (ended_save e p d u); trivial.
  intro He. apply session_matches_iff in Hm.
  destruct Hm as (_ & _ & Hlog & _).
  destruct Hend as (_ & _ & Hout). rewrite (Hout u Hin He) in Hlog.
  discriminate.
Qed.

Lemma ended_step (e p : string) (r : route) (rq : Request) (d : Database) :
  ended e p d -> ~ logs_in_again e p r rq ->
  ended e p (database_after (handler r) rq d).
Proof.
  intros Hend Hquiet. unfold database_after.
  destruct r; cbn [handler].
  - rewrite serve_home.
    destruct (peewee.User_get _ d) eqn:Hget; [|exact Hend].
    now apply ended_resolver.
  - rewrite serve_borrow_books.
    destruct (peewee.User_get _ d) eqn:Hget; [|exact Hend].
    now apply ended_resolver.
  - rewrite serve_borrow_book.
    destruct (peewee.User_get _ d) eqn:Hget; [|exact Hend].
    cbv zeta.
    destruct (sqlite.fits_integer book_id);
      [destruct (peewee.Book_select book_id d)|]; cbn [snd];
      first [ now apply ended_resolver
            | eapply ended_ext; [|now apply ended_resolver; eassumption];
              reflexivity ].
  - rewrite serve_return_book.
    destruct (peewee.User_get _ d) eqn:Hget; [|exact Hend].
    cbv zeta.
    destruct (sqlite.fits_integer book_id);
      [destruct (peewee.Book_select book_id d)|]; cbn [snd];
      first [ now apply ended_resolver
            | eapply ended_ext; [|now apply ended_resolver; eassumption];
              reflexivity ].
  - rewrite serve_logout.
    destruct (peewee.User_get _ d) as [u|] eqn:Hget; [|exact Hend].
    cbn [snd].
    pose proof (ended_resolver e p d rq u Hend Hget) as Hend1.
    destruct (User_get_some _ _ _ Hget) as [Hin Hm].
    assert (Hne : User.email u <> e).
    { intro He. apply session_matches_iff in Hm.
      destruct Hm as (_ & _ & Hlog & _).
      destruct Hend as (_ & _ & Hout). rewrite (Hout u Hin He) in Hlog.
      discriminate. }
    apply (ended_save e p _ (refreshed rq u)); trivial.
    apply (save_row_in User.id _ (user d) u); trivial.
  - exact Hend.
  - rewrite serve_register. cbv zeta.
    destruct (String.eqb (forms_get "first_name" rq) ""); [exact Hend|].
    destruct (String.eqb (forms_get "last_name" rq) ""); [exact Hend|].
    destruct (String.eqb (forms_get "email" rq) ""); [exact Hend|].
    destruct (String.eqb (forms_get "password" rq) ""); [exact Hend|].
    destruct (existsb _ (user d)) eqn:Hex; [exact Hend|]. cbn [snd].
    set (u := registered rq d).
    assert (Hfresh : forall r, In r (user d) ->
                               User.email r <> forms_get "email" rq).
    { intros r Hr. apply String.eqb_neq.
      destruct (String.eqb (User.email r) (forms_get "email" rq)) eqn:Hf;
        [|reflexivity].
      rewrite <- Hex. symmetry. apply existsb_exists. now exists r. }
    destruct Hend as (Hs & (r0 & Hr0 & He0 & Hp0) & Hout).
    assert (Hne : User.email u <> e).
    { cbn. intros <-. now elim (Hfresh r0 Hr0). }
    apply (ended_save e p _ u); trivial.
    + split; [apply user_schema_create; trivial; apply registered_fresh|].
      split.
      * exists r0. split; [|now split]. cbn [user with_user].
        apply in_insert_row. now right.
      * intros r Hr Her. cbn [user with_user] in Hr.
        apply in_insert_row in Hr.
        destruct Hr as [->|Hr]; [contradiction|now apply Hout].
    + cbn [user with_user]. apply in_insert_row. now left.
  - exact Hend.
  - rewrite serve_login. cbv zeta.
    destruct (String.eqb (forms_get "email" rq) ""); [exact Hend|].
    destruct (String.eqb (forms_get "password" rq) ""); [exact Hend|].
    destruct (peewee.User_get _ d) as [u|] eqn:Hget; [|exact Hend].
    cbn [snd]. destruct (User_get_some _ _ _ Hget) as [Hin Hc].
    apply credentials_iff in Hc. destruct Hc as [Heu Hpu].
    apply (ended_save e p d u); trivial.
    intro He. apply Hquiet.
    destruct Hend as ((_ & Huniq) & (r0 & Hr0 & He0 & Hp0) & _).
    assert (u = r0) as -> by (apply Huniq; trivial; congruence).
    repeat split; congruence.
Qed.

Lemma ended_serve_all (e p : string) (reqs : list (route * Request))
      (d : Database) :
  ended e p d ->
  Forall (fun x => ~ logs_in_again e p (fst x) (snd x)) reqs ->
  ended e p (serve_all reqs d).
Proof.
  revert d. induction reqs as [|[r rq] reqs IH]; intros d Hend Hq;
    [exact Hend|].
  inversion Hq as [|? ? Hhead Htail]; subst.
  cbn [serve_all]. apply IH; [|exact Htail]. now apply ended_step.
Qed.

Lemma serve_unauthenticated (r : route) (rq : Request) (d : Database) :
  authenticated r = true ->
  peewee.User_get (server.session_matches rq) d = None ->
  serve (handler r) rq d = (Raise (Redirect "/login"), [], d).
Proof.
  intros Hr Hnone.
  destruct r; try discriminate Hr; cbn [handler];
    [rewrite serve_home | rewrite serve_borrow_books
     | rewrite serve_borrow_book | rewrite serve_return_book
     | rewrite serve_logout];
    now rewrite Hnone.
Qed.

Lemma logout_ends (rq : Request) (d : Database) (u : User.t) :
  user_schema d ->
  peewee.User_get (server.session_matches rq) d = Some u ->
  ended (User.email u) (User.password u) (database_after server.logout rq d).
Proof.
  intros Hs Hget. destruct (User_get_some _ _ _ Hget) as [Hin Hm].
  unfold database_after. rewrite serve_logout, Hget. cbn [snd].
  set (u1 := refreshed rq u).
  set (u2 := User.set_logged_in false u1).
  assert (Hin1 : In u1 (user (peewee.User_save u1 d)))
    by (apply (save_row_in User.id _ (user d) u); trivial).
  assert (Hs1 : user_schema (peewee.User_save u1 d))
    by now apply (user_schema_save d u).
  split; [now apply (user_schema_save _ u1)|]. split.
  - exists u2. split; [|now split].
    apply (save_row_in User.id _ _ u1); trivial.
  - intros r Hr Her.
    apply (in_save_row User.id) in Hr.
    destruct Hr as [[-> _]|[Hr Hk]]; [reflexivity|].
    apply (in_save_row User.id) in Hr.
    destruct Hr as [[-> _]|[Hr _]]; [now elim Hk|].
    exfalso. apply Hk. cbn. f_equal. now apply Hs.
Qed.

(** C10, as stated, fails on "leaving last_seen untouched": [logout]
    starts with the resolver, so the row it leaves has [last_seen] at the
    time of the logout request, not at the value it had before. *)
Lemma logout_writes_last_seen :
  In sample.ayax (user sample.db)
  /\ User.last_seen sample.ayax = Some 1000
  /\ forall u, In u (user (database_after
                             server.logout
                             (sample.session sample.ayax 1500 sample.jan15)
                             sample.db)) ->
               User.id u = User.id sample.ayax ->
               User.last_seen u = Some 1500
               /\ User.last_seen u <> User.last_seen sample.ayax.
Proof.
  split; [now left|]. split; [reflexivity|].
  intros u [<-|[<-|[]]] Hid; [|discriminate Hid].
  split; [reflexivity|discriminate].
Qed.

(** C10, amended: the resolver returns a user only when the row's
    [logged_in] is true. A logout the resolver authenticates for the
    cookie pair (e, p) sets no cookie and saves the caller's row with
    [logged_in] false; email and password are as they were, and
    [last_seen] is the time of the logout request, to which the resolver
    has just refreshed it. From then on, whatever requests are served in
    between, as long as none is the login form with (e, p), every request
    that presents the cookie pair (e, p), at any time, is refused by the
    resolver: each route that needs a user redirects to /login and writes
    nothing. *)
Theorem logged_out_until_login
        (e p : string) (rq0 : Request) (d d1 : Database) (caller : User.t) :
  user_schema d ->
  get_cookie "user-email" rq0 = Some e ->
  get_cookie "password" rq0 = Some p ->
  run (server.get_logged_in_user rq0) d = (Return caller, [], d1) ->
  User.logged_in caller = true
  /\ serve server.logout rq0 d
     = (Raise (Redirect "/login"), [],
        peewee.User_save (User.set_logged_in false caller) d1)
  /\ User.email caller = e /\ User.password caller = p
  /\ User.last_seen caller = Some (time_time rq0)
  /\ forall reqs,
      Forall (fun x => ~ logs_in_again e p (fst x) (snd x)) reqs ->
      forall rq,
        get_cookie "user-email" rq = Some e ->
        get_cookie "password" rq = Some p ->
        let d' := serve_all reqs (database_after server.logout rq0 d) in
        run (server.get_logged_in_user rq) d'
        = (Raise (Redirect "/login"), [], d')
        /\ forall r, authenticated r = true ->
                     serve (handler r) rq d'
                     = (Raise (Redirect "/login"), [], d').
Proof.
  intros Hs He Hp Hres. apply resolved in Hres.
  destruct Hres as (u & Hget & -> & ->).
  destruct (User_get_some _ _ _ Hget) as [Hin Hm].
  apply session_matches_iff in Hm.
  destruct Hm as (Hue & Hup & Hlog & _).
  rewrite He in Hue. rewrite Hp in Hup.
  injection Hue as ->. injection Hup as ->.
  split; [exact Hlog|].
  split; [now rewrite serve_logout, Hget|].
  split; [reflexivity|]. split; [reflexivity|]. split; [reflexivity|].
  intros reqs Hquiet rq Hce Hcp d'.
  assert (Hend : ended (User.email u) (User.password u) d').
  { apply ended_serve_all; [|exact Hquiet]. now apply logout_ends. }
  pose proof (ended_rejects _ _ d' rq Hend Hce) as Hnone.
  split.
  - now rewrite run_get_logged_in_user, Hnone.
  - intros r Hr. now apply serve_unauthenticated.
Qed.

Lemma sample_user_schema : user_schema sample.db.
Proof.
  split; [apply sample_primary_keys|apply sample_unique_email].
Qed.

Lemma logged_out_until_login_witness :
  let d' := serve_all after_logout
              (database_after server.logout
                 (sample.session sample.ayax 1500 sample.jan15) sample.db) in
  serve server.home (sample.session sample.ayax 1600 sample.jan15) d'
  = (Raise (Redirect "/login"), [], d').
Proof.
  intro d'.
  destruct (logged_out_until_login
              "diaz.ayax@gmail.com" "chorizo"
              (sample.session sample.ayax 1500 sample.jan15)
              sample.db _ _ sample_user_schema eq_refl eq_refl eq_refl)
    as (_ & _ & _ & _ & _ & Hafter).
  assert (Hquiet : Forall (fun x => ~ logs_in_again
                                      "diaz.ayax@gmail.com" "chorizo"
                                      (fst x) (snd x)) after_logout)
    by (repeat constructor; intros (H1 & H2 & H3); discriminate).
  destruct (Hafter after_logout Hquiet
                   (sample.session sample.ayax 1600 sample.jan15)
                   eq_refl eq_refl) as [_ Hroutes].
  exact (Hroutes Home eq_refl).
Defined.

(** * The constraints of the schema are invariants *)

Lemma user_schema_ext (d d' : Database) :
  user d' = user d -> user_schema d -> user_schema d'.
Proof.
  unfold user_schema, unique_email. intros ->. trivial.
Qed.

Lemma user_schema_resolver (rq : Request) (d : Database) (u : User.t) :
  user_schema d ->
  peewee.User_get (server.session_matches rq) d = Some u ->
  user_schema (peewee.User_save (refreshed rq u) d).
Proof.
  intros Hs Hget. destruct (User_get_some _ _ _ Hget) as [Hin _].
  now apply (user_schema_save d u).
Qed.

(** The constraints hold after every request when they hold before: the
    hypotheses of the claims below are invariants of the application. *)
Lemma user_schema_step (r : route) (rq : Request) (d : Database) :
  user_schema d -> user_schema (database_after (handler r) rq d).
Proof.
  intro Hs. unfold database_after.
  destruct r; cbn [handler].
  - rewrite serve_home.
    destruct (peewee.User_get _ d) eqn:Hget; [|exact Hs].
    now apply user_schema_resolver.
  - rewrite serve_borrow_books.
    destruct (peewee.User_get _ d) eqn:Hget; [|exact Hs].
    now apply user_schema_resolver.
  - rewrite serve_borrow_book.
    destruct (peewee.User_get _ d) eqn:Hget; [|exact Hs].
    cbv zeta.
    destruct (sqlite.fits_integer book_id);
      [destruct (peewee.Book_select book_id d)|]; cbn [snd];
      first [ now apply user_schema_resolver
            | eapply user_schema_ext;
              [|now apply user_schema_resolver; eassumption];
              reflexivity ].
  - rewrite serve_return_book.
    destruct (peewee.User_get _ d) eqn:Hget; [|exact Hs].
    cbv zeta.
    destruct (sqlite.fits_integer book_id);
      [destruct (peewee.Book_select book_id d)|]; cbn [snd];
      first [ now apply user_schema_resolver
            | eapply user_schema_ext;
              [|now apply user_schema_resolver; eassumption];
              reflexivity ].
  - rewrite serve_logout.
    destruct (peewee.User_get _ d) as [u|] eqn:Hget; [|exact Hs].
    cbn [snd]. destruct (User_get_some _ _ _ Hget) as [Hin _].
    apply (user_schema_save _ (refreshed rq u)); trivial.
    + now apply user_schema_resolver.
    + apply (save_row_in User.id _ (user d) u); trivial.
  - exact Hs.
  - rewrite serve_register. cbv zeta.
    destruct (String.eqb (forms_get "first_name" rq) ""); [exact Hs|].
    destruct (String.eqb (forms_get "last_name" rq) ""); [exact Hs|].
    destruct (String.eqb (forms_get "email" rq) ""); [exact Hs|].
    destruct (String.eqb (forms_get "password" rq) ""); [exact Hs|].
    destruct (existsb _ (user d)) eqn:Hex; [exact Hs|]. cbn [snd].
    set (u := registered rq d).
    apply (user_schema_save _ u); trivial.
    + apply user_schema_create; trivial; [apply registered_fresh|].
      intros r Hr. apply String.eqb_neq.
      destruct (String.eqb (User.email r) (User.email u)) eqn:Hf;
        [|reflexivity].
      rewrite <- Hex. symmetry. apply existsb_exists. now exists r.
    + cbn [user with_user]. apply in_insert_row. now left.
  - exact Hs.
  - rewrite serve_login. cbv zeta.
    destruct (String.eqb (forms_get "email" rq) ""); [exact Hs|].
    destruct (String.eqb (forms_get "password" rq) ""); [exact Hs|].
    destruct (peewee.User_get _ d) as [u|] eqn:Hget; [|exact Hs].
    cbn [snd]. destruct (User_get_some _ _ _ Hget) as [Hin _].
    now apply (user_schema_save d u).
Qed.

Lemma schema_step (r : route) (rq : Request) (d : Database) :
  primary_keys d -> unique_email d ->
  primary_keys (database_after (handler r) rq d)
  /\ unique_email (database_after (handler r) rq d).
Proof.
  intros [Hu Hb] He.
  destruct (user_schema_step r rq d (conj Hu He)) as [Hu' He'].
  split; [split|]; trivial.
  destruct (book_after r rq d) as [->|(b' & _ & ->)]; [exact Hb|].
  now rewrite map_key_save_row.
Qed.

(** * Further properties of the handlers *)

(** ** Sessions *)

Lemma find_some_of {A} (f : A -> bool) (l : list A) (x : A) :
  In x l -> f x = true -> exists y, find f l = Some y.
Proof.
  intros Hin Hf. destruct (find f l) as [y|] eqn:H; [now exists y|].
  now rewrite (find_none _ _ H x Hin) in Hf.
Qed.

Lemma User_get_only (rq : Request) (d : Database) (u : User.t) :
  In u (user d) ->
  (forall v, In v (user d) -> User.email v = User.email u -> v = u) ->
  get_cookie "user-email" rq = Some (User.email u) ->
  peewee.User_get (server.session_matches rq) d =
  if server.session_matches rq u then Some u else None.
Proof.
  intros Hin Honly Hcookie. unfold peewee.User_get.
  destruct (find (server.session_matches rq) (user d)) as [v|] eqn:Hfind.
  - apply find_some in Hfind. destruct Hfind as [Hv Hm].
    assert (v = u) as ->.
    { apply Honly; trivial.
      apply session_matches_iff in Hm. destruct Hm as (He & _).
      congruence. }
    now rewrite Hm.
  - rewrite (find_none _ _ Hfind u Hin). reflexivity.
Qed.

(** For the one row with the email of the cookie, the resolver is the test
    on that row. *)
Lemma resolver_on_row (rq : Request) (d : Database) (u : User.t)
      (seen : Z) :
  In u (user d) ->
  (forall v, In v (user d) -> User.email v = User.email u -> v = u) ->
  presents (User.email u) (User.password u) rq ->
  User.logged_in u = true -> User.last_seen u = Some seen ->
  (time_time rq - seen < 3600 ->
   run (server.get_logged_in_user rq) d
   = (Return (refreshed rq u), [], peewee.User_save (refreshed rq u) d))
  /\ (3600 <= time_time rq - seen ->
      run (server.get_logged_in_user rq) d
      = (Raise (Redirect "/login"), [], d)).
Proof.
  intros Hin Honly [He Hp] Hlog Hseen.
  rewrite run_get_logged_in_user, (User_get_only rq d u Hin Honly He).
  split; intro Ht.
  - assert (server.session_matches rq u = true) as ->; [|reflexivity].
    apply session_matches_iff. repeat split; trivial.
    exists seen. now split.
  - assert (server.session_matches rq u = false) as ->; [|reflexivity].
    destruct (server.session_matches rq u) eqn:Hm; [|reflexivity].
    apply session_matches_iff in Hm.
    destruct Hm as (_ & _ & _ & s & Hs & Hlt).
    rewrite Hseen in Hs. injection Hs as <-. lia.
Qed.

(** X1: a request without the email cookie, without the password cookie,
    or whose cookie pair is the email and password of no row, is
    redirected to /login by each of the five routes that need a user, and
    nothing is written. *)
Theorem no_session_no_access (r : route) (rq : Request) (d : Database) :
  authenticated r = true ->
  get_cookie "user-email" rq = None
  \/ get_cookie "password" rq = None
  \/ (forall u, In u (user d) ->
                ~ presents (User.email u) (User.password u) rq) ->
  serve (handler r) rq d = (Raise (Redirect "/login"), [], d).
Proof.
  intros Hr Hno. apply serve_unauthenticated; [exact Hr|].
  apply find_none_iff. intros u Hu.
  destruct (server.session_matches rq u) eqn:Hm; [|reflexivity].
  apply session_matches_iff in Hm. destruct Hm as (He & Hp & _).
  destruct Hno as [Hno|[Hno|Hno]]; try congruence.
  now elim (Hno u Hu).
Qed.

Lemma no_session_no_access_witness :
  serve (server.borrow_book 1)
        (sample.session sample.mustafa 1500 sample.jan15)
        (with_user [sample.ayax] sample.db)
  = (Raise (Redirect "/login"), [], with_user [sample.ayax] sample.db)
  /\ serve server.logout (sample.post [] 1500) sample.db
     = (Raise (Redirect "/login"), [], sample.db).
Proof.
  split.
  - apply (no_session_no_access (BorrowBook 1)); [reflexivity|].
    right. right. intros u [<-|[]] [He _]. discriminate He.
  - apply (no_session_no_access Logout); [reflexivity|]. now left.
Defined.

(** X2: the session slides. When the resolver has accepted a request at
    time t, the next request with the same cookie pair is accepted
    exactly when it comes less than 3600 seconds after t, however long
    ago the login was; on acceptance the row is refreshed again, on
    refusal nothing is written. *)
Theorem session_slides
        (e p : string) (rq1 rq2 : Request) (d d1 : Database)
        (caller : User.t) :
  user_schema d ->
  presents e p rq1 -> presents e p rq2 ->
  run (server.get_logged_in_user rq1) d = (Return caller, [], d1) ->
  (time_time rq2 - time_time rq1 < 3600 ->
   run (server.get_logged_in_user rq2) d1
   = (Return (refreshed rq2 caller), [],
      peewee.User_save (refreshed rq2 caller) d1))
  /\ (3600 <= time_time rq2 - time_time rq1 ->
      run (server.get_logged_in_user rq2) d1
      = (Raise (Redirect "/login"), [], d1)).
Proof.
  intros Hs [He1 Hp1] [He2 Hp2] Hres. apply resolved in Hres.
  destruct Hres as (u & Hget & -> & ->).
  destruct (User_get_some _ _ _ Hget) as [Hin Hm].
  apply session_matches_iff in Hm. destruct Hm as (Hue & Hup & Hlog & _).
  rewrite He1 in Hue. rewrite Hp1 in Hup.
  injection Hue as ->. injection Hup as ->.
  apply (resolver_on_row rq2 _ (refreshed rq1 u) (time_time rq1)).
  - apply (save_row_in User.id _ (user d) u); trivial.
  - intros v Hv Hev.
    apply (proj2 (user_schema_save d u (refreshed rq1 u) Hs Hin
                                   eq_refl eq_refl)); trivial.
    apply (save_row_in User.id _ (user d) u); trivial.
  - now split.
  - exact Hlog.
  - reflexivity.
Qed.

Lemma session_slides_witness :
  fst (fst (run (server.get_logged_in_user
                   (sample.session sample.ayax 6000 sample.jan15))
                (peewee.User_save (User.set_last_seen (Some 4000) sample.ayax)
                                  sample.db)))
  = Return (User.set_last_seen (Some 6000) sample.ayax)
  /\ fst (fst (run (server.get_logged_in_user
                      (sample.session sample.ayax 7600 sample.jan15))
                   (peewee.User_save
                      (User.set_last_seen (Some 4000) sample.ayax)
                      sample.db)))
     = Raise (Redirect "/login").
Proof.
  split.
  - rewrite (proj1 (session_slides
                      "diaz.ayax@gmail.com" "chorizo"
                      (sample.session sample.ayax 4000 sample.jan15)
                      (sample.session sample.ayax 6000 sample.jan15)
                      sample.db
                      (peewee.User_save
                         (User.set_last_seen (Some 4000) sample.ayax)
                         sample.db)
                      (User.set_last_seen (Some 4000) sample.ayax)
                      sample_user_schema
                      (conj eq_refl eq_refl) (conj eq_refl eq_refl) eq_refl)
                   ltac:(cbn; lia)).
    reflexivity.
  - rewrite (proj2 (session_slides
                      "diaz.ayax@gmail.com" "chorizo"
                      (sample.session sample.ayax 4000 sample.jan15)
                      (sample.session sample.ayax 7600 sample.jan15)
                      sample.db
                      (peewee.User_save
                         (User.set_last_seen (Some 4000) sample.ayax)
                         sample.db)
                      (User.set_last_seen (Some 4000) sample.ayax)
                      sample_user_schema
                      (conj eq_refl eq_refl) (conj eq_refl eq_refl) eq_refl)
                   ltac:(cbn; lia)).
    reflexivity.
Defined.

(** ** Registration and login *)

Lemma save_row_fresh {A} (key : A -> Z) (x : A) (l : list A) :
  (forall r, In r l -> key r <> key x) -> save_row key x l = l.
Proof.
  intro H. unfold save_row. rewrite <- (map_id l) at 2.
  apply map_ext_in. intros r Hr.
  destruct (key r =? key x) eqn:Hk; [|reflexivity].
  apply Z.eqb_eq in Hk. now elim (H r Hr).
Qed.

Lemma save_row_app {A} (key : A -> Z) (x : A) (l1 l2 : list A) :
  save_row key x (l1 ++ l2) = (save_row key x l1 ++ save_row key x l2)%list.
Proof. apply map_app. Qed.










(** X6: [login] checks the email before the password: an empty email
    gives "Please enter an email address." also when the password is
    empty too; an empty password with an email gives "Please enter a
    password."; in both cases the submitted values come back, no row is
    looked up or written and no cookie is set, even for the email of an
    account. *)
Theorem login_first_missing_field (rq : Request) (d : Database) :
  (forms_get "email" rq = "" ->
   serve server.login rq d
   = (Return (login_tpl (LoginForm.Build
                           "" (forms_get "password" rq)
                           "Please enter an email address.")), [], d))
  /\ (forms_get "email" rq <> "" -> forms_get "password" rq = "" ->
      serve server.login rq d
      = (Return (login_tpl (LoginForm.Build
                              (forms_get "email" rq) ""
                              "Please enter a password.")), [], d)).
Proof.
  rewrite serve_login. cbv zeta. split.
  - intros ->. reflexivity.
  - intros He ->. apply String.eqb_neq in He. now rewrite He.
Qed.

Lemma login_first_missing_field_witness :
  serve server.login (sample.post [("password", "1234")] 77) sample.db
  = (Return (login_tpl (LoginForm.Build
                          "" "1234" "Please enter an email address.")),
     [], sample.db)
  /\ serve server.login
           (sample.post [("email", "mustafa.sanli@gmail.com")] 77) sample.db
     = (Return (login_tpl (LoginForm.Build
                             "mustafa.sanli@gmail.com" ""
                             "Please enter a password.")),
        [], sample.db).
Proof.
  split.
  - apply (proj1 (login_first_missing_field
                    (sample.post [("password", "1234")] 77) sample.db)).
    reflexivity.
  - apply (proj2 (login_first_missing_field
                    (sample.post [("email", "mustafa.sanli@gmail.com")] 77)
                    sample.db)); [discriminate|reflexivity].
Defined.

(** ** Borrowing and returning *)

Lemma save_row_same {A} (key : A -> Z) (x : A) (l : list A) :
  NoDup (map key l) -> In x l -> save_row key x l = l.
Proof.
  intros Hnd Hin. unfold save_row. rewrite <- (map_id l) at 2.
  apply map_ext_in. intros r Hr.
  destruct (key r =? key x) eqn:Hk; [|reflexivity].
  apply Z.eqb_eq in Hk. symmetry.
  now apply (NoDup_key_inj key l).
Qed.

Lemma set_borrowed_available (b : Book.t) :
  Book.borrowed_by b = None -> Book.borrowed_at b = None ->
  Book.set_borrowed None None b = b.
Proof.
  destruct b. cbn. now intros -> ->.
Qed.

(** X7: for a book id that is an integer of sqlite and a request the
    resolver authenticates, [return_book] of an id that no book has fails
    with 404 "Book not found." and changes no book; of an id that a book
    has, it saves that row with [borrowed_by] and [borrowed_at] null, its
    other columns as they were, and redirects to /home, whoever had
    borrowed the book and also when nobody had: the caller is not
    compared with the borrower. The saved row is in the table afterwards,
    and is every row of that id. *)
Theorem return_book_outcome
        (book_id : Z) (rq : Request) (d d1 : Database) (caller : User.t) :
  sqlite.MIN_INTEGER <= book_id <= sqlite.MAX_ROWID ->
  run (server.get_logged_in_user rq) d = (Return caller, [], d1) ->
  book d1 = book d
  /\ ((forall b, In b (book d) -> Book.id b <> book_id) ->
      serve (server.return_book book_id) rq d
      = (Raise (HTTPError 404 "Book not found."), [], d1))
  /\ (forall b0, In b0 (book d) -> Book.id b0 = book_id ->
      exists b b',
        In b (book d) /\ Book.id b = book_id
        /\ peewee.Book_get book_id d = Return (Some b)
        /\ serve (server.return_book book_id) rq d
           = (Raise (Redirect "/home"), [], peewee.Book_save b' d1)
        /\ Book.borrowed_by b' = None /\ Book.borrowed_at b' = None
        /\ same_catalogue_entry b b'
        /\ In b' (book (peewee.Book_save b' d1))
        /\ forall r, In r (book (peewee.Book_save b' d1)) ->
                     Book.id r = book_id -> r = b').
Proof.
  intros Hfits Hres. apply fits_integer_iff in Hfits.
  apply resolved in Hres.
  destruct Hres as (u & Hget & -> & ->).
  split; [reflexivity|]. split.
  - intro Hnone. apply Book_select_none_iff in Hnone.
    now rewrite serve_return_book, Hget, Hfits, Hnone.
  - intros b0 Hin0 Hid0.
    destruct (Book_select_of book_id d b0 Hin0 Hid0) as [b Hb].
    destruct (Book_select_some _ _ _ Hb) as [Hin Hid].
    exists b, (Book.set_borrowed None None b).
    destruct (Book_save_found
                book_id d (peewee.User_save (refreshed rq u) d) b
                (Book.set_borrowed None None b)
                Hb eq_refl eq_refl) as (Hin' & _ & _ & Honly).
    split; [exact Hin|]. split; [exact Hid|].
    split; [unfold peewee.Book_get; now rewrite Hfits, Hb|].
    split; [now rewrite serve_return_book, Hget, Hfits, Hb|].
    split; [reflexivity|]. split; [reflexivity|].
    split; [now repeat split|]. split; [exact Hin'|exact Honly].
Qed.

Lemma return_book_outcome_witness :
  Book.borrowed_by sample.animal_farm = Some (User.id sample.ayax)
  /\ fst (fst (serve (server.return_book 2)
                     (sample.session sample.mustafa 100 sample.jan15)
                     (database_after server.login mustafa_logs_in
                                     sample.db)))
     = Raise (Redirect "/home")
  /\ exists b',
      In b' (book (database_after
                     (server.return_book 2)
                     (sample.session sample.mustafa 100 sample.jan15)
                     (database_after server.login mustafa_logs_in
                                     sample.db)))
      /\ Book.id b' = 2
      /\ Book.borrowed_by b' = None /\ Book.borrowed_at b' = None.
Proof.
  destruct (proj2 (proj2 (return_book_outcome
                            2 (sample.session sample.mustafa 100 sample.jan15)
                            (database_after server.login mustafa_logs_in
                                            sample.db)
                            _ _ ltac:(vm_compute; intuition discriminate)
                            eq_refl))
                  sample.animal_farm (or_intror (or_introl eq_refl)) eq_refl)
    as (b & b' & _ & Hidb & _ & Hserve & Hby & Hat & (Hid & _) & Hin & _).
  split; [reflexivity|]. split.
  - now rewrite Hserve.
  - exists b'. unfold database_after at 1. rewrite Hserve.
    split; [exact Hin|]. split; [|now split].
    now rewrite Hid.
Defined.

(** X18: a book id outside the integers of sqlite (below -2^63 or above
    2^63 - 1), which the routes accept: for a request the resolver
    authenticates, [Book.get] raises [OverflowError] whatever the book
    table holds, and [borrow_book] and [return_book], which catch
    [Book.DoesNotExist] only, end with that exception instead of the 404;
    the database is the one the resolver has left, so no book has
    changed. *)
Theorem book_id_out_of_range
        (book_id : Z) (rq : Request) (d d1 : Database) (caller : User.t) :
  ~ sqlite.MIN_INTEGER <= book_id <= sqlite.MAX_ROWID ->
  run (server.get_logged_in_user rq) d = (Return caller, [], d1) ->
  peewee.Book_get book_id d = Raise OverflowError
  /\ serve (server.borrow_book book_id) rq d = (Raise OverflowError, [], d1)
  /\ serve (server.return_book book_id) rq d = (Raise OverflowError, [], d1)
  /\ book d1 = book d.
Proof.
  intros Hout Hres. apply resolved in Hres.
  destruct Hres as (u & Hget & -> & ->).
  assert (Hfits : sqlite.fits_integer book_id = false).
  { destruct (sqlite.fits_integer book_id) eqn:H; [|reflexivity].
    now apply fits_integer_iff in H. }
  unfold peewee.Book_get.
  now rewrite serve_borrow_book, serve_return_book, Hget, Hfits.
Qed.

Lemma book_id_out_of_range_witness :
  serve (server.borrow_book 9223372036854775808)
        (sample.session sample.ayax 1500 sample.jan15) sample.db
  = (Raise OverflowError, [],
     peewee.User_save (User.set_last_seen (Some 1500) sample.ayax) sample.db)
  /\ serve (server.return_book (-9223372036854775809))
           (sample.session sample.ayax 1500 sample.jan15) sample.db
     = (Raise OverflowError, [],
        peewee.User_save (User.set_last_seen (Some 1500) sample.ayax)
                         sample.db).
Proof.
  split.
  - apply (proj1 (proj2 (book_id_out_of_range
                           9223372036854775808
                           (sample.session sample.ayax 1500 sample.jan15)
                           sample.db _ _
                           ltac:(unfold sqlite.MAX_ROWID; lia) eq_refl))).
  - apply (proj1 (proj2 (proj2 (book_id_out_of_range
                           (-9223372036854775809)
                           (sample.session sample.ayax 1500 sample.jan15)
                           sample.db _ _
                           ltac:(unfold sqlite.MIN_INTEGER; lia) eq_refl)))).
Defined.

(** X8: borrowing an available book and returning it gives back the book
    table as it was: when every id is the id of one book and the book of
    the id has [borrowed_by] and [borrowed_at] null, the book table after
    a [borrow_book] of the id followed by a [return_book] of the id that
    completes is the table before, whether or not the [borrow_book] went
    through. *)
Theorem borrow_then_return_restores
        (book_id : Z) (rq1 rq2 : Request) (d : Database) (b : Book.t) :
  primary_keys d -> In b (book d) -> Book.id b = book_id ->
  Book.borrowed_by b = None -> Book.borrowed_at b = None ->
  fst (fst (serve (server.return_book book_id) rq2
                  (database_after (server.borrow_book book_id) rq1 d)))
  = Raise (Redirect "/home") ->
  book (database_after (server.return_book book_id) rq2
          (database_after (server.borrow_book book_id) rq1 d))
  = book d.
Proof.
  intros [_ Hpk] Hin Hid Hby Hat.
  assert (Hget : peewee.Book_select book_id d = Some b).
  { destruct (peewee.Book_select book_id d) as [b'|] eqn:Hb.
    - destruct (Book_select_some _ _ _ Hb) as [Hin' Hid'].
      f_equal. apply (NoDup_key_inj Book.id (book d)); trivial. congruence.
    - now elim (proj1 (Book_select_none_iff book_id d) Hb b Hin). }
  set (d1 := database_after (server.borrow_book book_id) rq1 d).
  assert (Hd1 : book d1 = book d
                \/ exists u1,
                    book d1 = save_row Book.id
                                (Book.set_borrowed (Some (User.id u1))
                                                   (Some (date_today rq1)) b)
                                (book d)).
  { unfold d1, database_after. rewrite serve_borrow_book.
    destruct (peewee.User_get _ d) as [u1|]; [|now left].
    cbv zeta. destruct (sqlite.fits_integer book_id); [|now left].
    rewrite Hget. right. now exists u1. }
  clearbody d1.
  unfold database_after. rewrite serve_return_book.
  destruct (peewee.User_get _ d1) as [u2|]; [|discriminate]. cbv zeta.
  destruct (sqlite.fits_integer book_id); [|discriminate].
  destruct Hd1 as [Hd1|[u1 Hd1]].
  - assert (Hget1 : peewee.Book_select book_id d1 = Some b)
      by (unfold peewee.Book_select in *; now rewrite Hd1).
    rewrite Hget1. intros _. cbn [snd].
    change (book (peewee.Book_save (Book.set_borrowed None None b) _))
      with (save_row Book.id (Book.set_borrowed None None b) (book d1)).
    rewrite Hd1, set_borrowed_available by assumption.
    now apply save_row_same.
  - set (b1 := Book.set_borrowed (Some (User.id u1))
                                 (Some (date_today rq1)) b) in *.
    assert (Hget1 : peewee.Book_select book_id d1 = Some b1).
    { destruct (peewee.Book_select book_id d1) as [b'|] eqn:Hb.
      - destruct (Book_select_some _ _ _ Hb) as [Hin' Hid'].
        rewrite Hd1 in Hin'. apply (in_save_row Book.id) in Hin'.
        destruct Hin' as [[-> _]|[_ Hne]]; [reflexivity|].
        exfalso. apply Hne. cbn. congruence.
      - exfalso.
        apply (proj1 (Book_select_none_iff _ _) Hb b1); [|exact Hid].
        rewrite Hd1. apply (save_row_in Book.id _ (book d) b); trivial. }
    rewrite Hget1. intros _. cbn [snd].
    change (book (peewee.Book_save (Book.set_borrowed None None b1) _))
      with (save_row Book.id (Book.set_borrowed None None b1) (book d1)).
    rewrite Hd1, save_row_twice by reflexivity.
    change (Book.set_borrowed None None b1)
      with (Book.set_borrowed None None b).
    rewrite set_borrowed_available by assumption.
    now apply save_row_same.
Qed.

Lemma borrow_then_return_restores_witness :
  book (database_after
          (server.return_book 1)
          (sample.session sample.ayax 1600 sample.jan15)
          (database_after (server.borrow_book 1)
                          (sample.session sample.ayax 1500 sample.jan15)
                          sample.db))
  = book sample.db.
Proof.
  apply (borrow_then_return_restores
           1 (sample.session sample.ayax 1500 sample.jan15)
           (sample.session sample.ayax 1600 sample.jan15)
           sample.db sample.good_omens sample_primary_keys
           (or_introl eq_refl) eq_refl eq_refl eq_refl eq_refl).
Defined.

(** X9: after a [borrow_book] that went through, the list of
    [borrow_books] shown to the borrower holds no book of that id, and
    the list shown to any other user still holds the borrowed book, with
    the borrower on it, provided the book is linked to an author. *)
Theorem borrowed_book_and_the_lists
        (book_id : Z) (rq rq' : Request) (d d1 d2 : Database)
        (caller caller' : User.t) (bk : Book.t) (days : string)
        (cs cs' : list (string * string)) (books : list (Book.t * string)) :
  serve (server.borrow_book book_id) rq d
  = (Return (borrow_book_tpl caller bk days), cs, d1) ->
  serve server.borrow_books rq' d1
  = (Return (borrow_books_tpl books caller'), cs', d2) ->
  (User.id caller' = User.id caller ->
   forall b names, In (b, names) books -> Book.id b <> book_id)
  /\ (User.id caller' <> User.id caller ->
      (exists a, written_by d bk a) ->
      Book.borrowed_by bk = Some (User.id caller)
      /\ exists names, In (bk, names) books).
Proof.
  rewrite serve_borrow_book.
  destruct (peewee.User_get _ d) as [u|]; [|discriminate]. cbv zeta.
  destruct (sqlite.fits_integer book_id); [|discriminate].
  destruct (peewee.Book_select book_id d) as [b0|] eqn:Hb0; [|discriminate].
  intro H. injection H as Hcaller Hbk _ _ Hd1. subst caller bk d1.
  destruct (Book_select_some _ _ _ Hb0) as [Hin0 Hid0].
  set (b1 := Book.set_borrowed (Some (User.id u)) (Some (date_today rq)) b0).
  set (db1 := peewee.Book_save b1 _).
  rewrite serve_borrow_books.
  destruct (peewee.User_get _ db1) as [u'|]; [|discriminate]. cbv zeta.
  intro H. injection H as Hbooks Hcaller' _ Hd2. subst books caller' d2.
  set (db2 := peewee.User_save (refreshed rq' u') db1).
  split.
  - intros Hsame b names Hb Hid.
    apply filter_In in Hb. destruct Hb as [Hb Hne]. cbn [fst] in Hne.
    apply in_order_by_title, in_group_by_id in Hb. destruct Hb as (Hb & _).
    change (book db2) with (save_row Book.id b1 (book d)) in Hb.
    apply (in_save_row Book.id) in Hb.
    destruct Hb as [[-> _]|[_ Hk]].
    + apply borrowed_by_ne_iff in Hne. apply Hne.
      cbn in Hsame |- *. congruence.
    + apply Hk. cbn. congruence.
  - intros Hother (a & Ha). split; [reflexivity|].
    exists (String.concat "," (joined_author_names db2 b1)).
    apply filter_In. split.
    + apply in_order_by_title, in_group_by_id.
      split; [|split; [|reflexivity]].
      * change (book db2) with (save_row Book.id b1 (book d)).
        apply (save_row_in Book.id _ (book d) b0); trivial.
      * apply joined_author_names_nonempty. exists a. exact Ha.
    + cbn [fst]. apply borrowed_by_ne_iff. cbn in Hother |- *. congruence.
Qed.

Lemma borrowed_book_and_the_lists_witness :
  Forall (fun row : Book.t * string => Book.id (fst row) <> 1)
         (filter (fun row => borrowed_by_ne
                               (fst row)
                               (User.set_last_seen (Some 1600) sample.ayax))
                 (select_books
                    (database_after
                       (server.borrow_book 1)
                       (sample.session sample.ayax 1500 sample.jan15)
                       sample.db))).
Proof.
  apply Forall_forall. intros [b names].
  exact (proj1 (borrowed_book_and_the_lists
                  1 (sample.session sample.ayax 1500 sample.jan15)
                  (sample.session sample.ayax 1600 sample.jan15)
                  sample.db _ _ _ _ _ _ _ _ _ eq_refl eq_refl) eq_refl
               b names).
Defined.

(** X10: the page of a [borrow_book] that went through shows "30" as the
    allowed days, and the return date of the book on it is the day of
    the borrowing plus 30 days on whatever later day it is computed (an
    [OverflowError] when that day is past 9999-12-31); after a
    [return_book] that completes, the book of that id is in the table and
    its return date is again the day on which it is computed. *)
Theorem return_date_after_borrow_and_return
        (book_id : Z) (rq : Request) (d : Database) :
  datetime.valid (date_today rq) ->
  (forall caller bk days cs d1 today,
      serve (server.borrow_book book_id) rq d
      = (Return (borrow_book_tpl caller bk days), cs, d1) ->
      days = "30"
      /\ (date_today rq + 30 <= datetime.MAXORDINAL ->
          Book.return_date today bk = Return (date_today rq + 30))
      /\ (datetime.MAXORDINAL < date_today rq + 30 ->
          Book.return_date today bk = Raise OverflowError))
  /\ (forall cs d1 today,
         serve (server.return_book book_id) rq d
         = (Raise (Redirect "/home"), cs, d1) ->
         (exists b, In b (book d1) /\ Book.id b = book_id)
         /\ forall b, In b (book d1) -> Book.id b = book_id ->
                      Book.return_date today b = Return today).
Proof.
  intros [Hpos Hmax]. split.
  - intros caller bk days cs d1 today Hserve.
    apply borrow_book_completed in Hserve.
    destruct Hserve as (u & b0 & _ & _ & _ & _ & Hbk & Hdays & _).
    subst bk days.
    split; [reflexivity|].
    unfold Book.return_date, datetime.date_add.
    cbn [Book.borrowed_at Book.set_borrowed].
    change constants.ALLOWED_BORROW_DAYS with 30. cbv zeta.
    split; intro Hd.
    + replace (0 <? date_today rq + 30) with true
        by (symmetry; apply Z.ltb_lt; lia).
      replace (date_today rq + 30 <=? datetime.MAXORDINAL) with true
        by (symmetry; apply Z.leb_le; lia).
      reflexivity.
    + replace (date_today rq + 30 <=? datetime.MAXORDINAL) with false
        by (symmetry; apply Z.leb_gt; lia).
      now rewrite andb_false_r.
  - intros cs d1 today Hserve.
    apply return_book_completed in Hserve.
    destruct Hserve as (u & b0 & _ & _ & Hsel & _ & ->).
    destruct (Book_save_found book_id d (peewee.User_save (refreshed rq u) d)
                              b0 (Book.set_borrowed None None b0)
                              Hsel eq_refl eq_refl)
      as (Hin & Hid & _ & Honly).
    split; [eexists; split; eassumption|].
    intros b Hb Hbid. now rewrite (Honly b Hb Hbid).
Qed.

Lemma return_date_after_borrow_and_return_witness :
  Book.return_date
    (sample.jan15 + 100)
    (Book.set_borrowed (Some 1) (Some sample.jan15) sample.good_omens)
  = Return (sample.jan15 + 30).
Proof.
  apply (proj1 (proj2 (proj1 (return_date_after_borrow_and_return
                                1
                                (sample.session sample.ayax 1500 sample.jan15)
                                sample.db
                                ltac:(vm_compute; split;
                                      [reflexivity|discriminate]))
                             _ _ _ _ _ (sample.jan15 + 100) eq_refl))).
  cbn. unfold sample.jan15, datetime.MAXORDINAL. lia.
Defined.

(** ** What no handler does *)





Lemma same_catalogue_entry_refl (b : Book.t) : same_catalogue_entry b b.
Proof. now repeat split. Qed.

(** X12: no handler adds or removes a book, an author or an author
    association, and none changes the id, title, publication_year,
    average_rating, ratings_count or image_url of a book: when every id
    is the id of one row, after any request the author table and the
    association table are the ones before and the book table holds the
    same catalogue entries in the same order; unless the request is a
    [borrow_book] or a [return_book], the book table is unchanged. *)
Theorem catalogue_kept (r : route) (rq : Request) (d : Database) :
  primary_keys d ->
  author (database_after (handler r) rq d) = author d
  /\ book_author_through (database_after (handler r) rq d)
     = book_author_through d
  /\ Forall2 same_catalogue_entry
             (book d) (book (database_after (handler r) rq d))
  /\ ((forall book_id, r <> BorrowBook book_id) ->
      (forall book_id, r <> ReturnBook book_id) ->
      book (database_after (handler r) rq d) = book d).
Proof.
  intro Hpk.
  assert (Hsame : Forall2 same_catalogue_entry (book d) (book d))
    by (apply Forall2_same; intros; apply same_catalogue_entry_refl).
  assert (Hsave : forall book_id b by_ at_,
             peewee.Book_select book_id d = Some b ->
             Forall2 same_catalogue_entry (book d)
                     (save_row Book.id (Book.set_borrowed by_ at_ b)
                               (book d))).
  { intros book_id b by_ at_ Hb.
    pose proof (book_after_save book_id d b by_ at_ Hpk Hb) as H.
    eapply Forall2_impl; [|exact H]. now intros x y [Hxy _]. }
  unfold database_after.
  destruct r; cbn [handler].
  - rewrite serve_home.
    destruct (peewee.User_get _ d); cbn [snd]; now repeat split.
  - rewrite serve_borrow_books.
    destruct (peewee.User_get _ d); cbn [snd]; now repeat split.
  - rewrite serve_borrow_book.
    destruct (peewee.User_get _ d); cbv zeta;
      [destruct (sqlite.fits_integer book_id);
       [destruct (peewee.Book_select book_id d) eqn:Hb|]|]; cbn [snd];
      (split; [reflexivity|]); (split; [reflexivity|]);
      (split; [|intro H; now elim (H book_id)]);
      try exact Hsame.
    exact (Hsave _ _ _ _ Hb).
  - rewrite serve_return_book.
    destruct (peewee.User_get _ d); cbv zeta;
      [destruct (sqlite.fits_integer book_id);
       [destruct (peewee.Book_select book_id d) eqn:Hb|]|]; cbn [snd];
      (split; [reflexivity|]); (split; [reflexivity|]);
      (split; [|intros _ H; now elim (H book_id)]);
      try exact Hsame.
    exact (Hsave _ _ _ _ Hb).
  - rewrite serve_logout.
    destruct (peewee.User_get _ d); cbn [snd]; now repeat split.
  - now repeat split.
  - rewrite serve_register. cbv zeta.
    repeat match goal with
           | |- context [if ?c then _ else _] => destruct c
           end; cbn [snd]; now repeat split.
  - now repeat split.
  - rewrite serve_login. cbv zeta.
    repeat match goal with
           | |- context [if ?c then _ else _] => destruct c
           end; cbn [snd]; try now repeat split.
    destruct (peewee.User_get _ d); cbn [snd]; now repeat split.
Qed.

Lemma catalogue_kept_witness :
  Forall2 same_catalogue_entry
          (book sample.db)
          (book (database_after (server.borrow_book 1)
                   (sample.session sample.ayax 1500 sample.jan15) sample.db))
  /\ book (database_after server.register sample_registration sample.db)
     = book sample.db.
Proof.
  split.
  - apply (catalogue_kept (BorrowBook 1)
             (sample.session sample.ayax 1500 sample.jan15) sample.db
             sample_primary_keys).
  - apply (catalogue_kept Register sample_registration sample.db
             sample_primary_keys); discriminate.
Defined.

(** X13: the constraints of the schema survive every sequence of
    requests: when ids are unique in the user and book tables and emails
    are unique in the user table, they still are after the requests; a
    registration never brings a second row with an email or an id of the
    table. *)
Theorem schema_kept (reqs : list (route * Request)) (d : Database) :
  primary_keys d -> unique_email d ->
  primary_keys (serve_all reqs d) /\ unique_email (serve_all reqs d).
Proof.
  revert d. induction reqs as [|[r rq] reqs IH]; intros d Hpk He;
    [now split|].
  cbn [serve_all].
  destruct (schema_step r rq d Hpk He) as [Hpk' He'].
  now apply IH.
Qed.

Lemma schema_kept_witness :
  primary_keys (serve_all ((Register, sample_registration) :: after_logout)
                          sample.db)
  /\ unique_email (serve_all ((Register, sample_registration) :: after_logout)
                             sample.db).
Proof.
  exact (schema_kept ((Register, sample_registration) :: after_logout)
                     sample.db sample_primary_keys sample_unique_email).
Defined.

(** * The import of books.csv *)

Lemma split_comma_space_nonempty (s : string) : split_comma_space s <> [].
Proof.
  destruct s as [|c rest]; cbn [split_comma_space]; [discriminate|].
  cbv zeta.
  assert (H : match split_comma_space rest with
              | [] => [String c ""]
              | piece :: pieces => String c piece :: pieces
              end <> [])
    by (destruct (split_comma_space rest); discriminate).
  destruct (Ascii.eqb c ","); [|exact H].
  destruct rest as [|c' rest']; [exact H|].
  destruct (Ascii.eqb c' " "); [discriminate|exact H].
Qed.

Section ImportProofs.

Variable set_ : list string -> list string.

Variable random_rowid : string -> list Z -> Z.

(** [set(l)] holds the elements of [l]. *)
Hypothesis set_In : forall l x, In x (set_ l) <-> In x l.

(** [Author.get_or_create]: the author table keeps its rows and grows by
    at most the row returned. *)
Lemma Author_get_or_create_spec (name : string) (d d' : Database)
      (a : Author.t) :
  models.Author_get_or_create random_rowid name d = (a, d') ->
  user d' = user d /\ book d' = book d
  /\ book_author_through d' = book_author_through d
  /\ (forall x, In x (author d) -> In x (author d'))
  /\ In a (author d') /\ Author.name a = name
  /\ (NoDup (map Author.id (author d)) ->
      NoDup (map Author.id (author d')))
  /\ (NoDup (map Author.name (author d)) ->
      NoDup (map Author.name (author d'))).
Proof.
  unfold models.Author_get_or_create.
  destruct (find _ (author d)) as [a0|] eqn:Hfind; cbv zeta; intro H;
    injection H as <- <-.
  - apply find_some in Hfind. destruct Hfind as [Hin Hname].
    apply String.eqb_eq in Hname.
    repeat split; trivial.
  - cbn [user book book_author_through author with_author].
    repeat split; trivial.
    + intros x Hx. apply in_insert_row. now right.
    + apply in_insert_row. now left.
    + intro Hnd. apply NoDup_insert_row; trivial. apply new_rowid_fresh.
    + intro Hnd.
      apply (Permutation_NoDup
               (l := map Author.name
                         (Author.Build
                            (sqlite.new_rowid
                               (random_rowid "author"
                                             (map Author.id (author d)))
                               (map Author.id (author d))) name
                            :: author d))).
      * symmetry. apply Permutation_map, insert_row_perm.
      * cbn [map Author.name]. constructor; [|exact Hnd].
        intro Hn. apply in_map_iff in Hn.
        destruct Hn as (x & Hx & Hin).
        pose proof (find_none _ _ Hfind x Hin) as Hne.
        apply String.eqb_neq in Hne. contradiction.
Qed.

Lemma get_or_create_all_spec (names : list string) (d d' : Database)
      (authors_data : list Author.t) :
  models.get_or_create_all random_rowid names d = (authors_data, d') ->
  user d' = user d /\ book d' = book d
  /\ book_author_through d' = book_author_through d
  /\ (forall x, In x (author d) -> In x (author d'))
  /\ (forall a, In a authors_data -> In a (author d'))
  /\ map Author.name authors_data = names
  /\ (NoDup (map Author.id (author d)) ->
      NoDup (map Author.id (author d')))
  /\ (NoDup (map Author.name (author d)) ->
      NoDup (map Author.name (author d'))).
Proof.
  revert d d' authors_data.
  induction names as [|name names IH]; intros d d' authors_data;
    cbn [models.get_or_create_all].
  - intro H. injection H as <- <-. repeat split; trivial.
    intros a [].
  - destruct (models.Author_get_or_create random_rowid name d)
      as [a d1] eqn:H1.
    destruct (models.get_or_create_all random_rowid names d1)
      as [rest d2] eqn:H2.
    intro H. injection H as <- <-.
    apply Author_get_or_create_spec in H1.
    destruct H1 as (Hu1 & Hb1 & Ht1 & Ha1 & Hin1 & Hn1 & Hid1 & Hnm1).
    apply IH in H2.
    destruct H2 as (Hu2 & Hb2 & Ht2 & Ha2 & Hin2 & Hn2 & Hid2 & Hnm2).
    repeat split; try congruence; auto.
    + intros x [<-|Hx]; [|now apply Hin2]. now apply Ha2.
    + cbn. now rewrite Hn1, Hn2.
Qed.

(** The INSERTs of [book.authors = authors_data]. *)
Lemma through_rows_added (book_id : Z) (authors_data : list Author.t)
      (init : list BookAuthorThrough.t) :
  let rows :=
    fold_left (models.through_insert random_rowid book_id)
              authors_data init in
  (forall th, In th init -> In th rows)
  /\ (forall a, In a authors_data ->
                exists th, In th rows
                           /\ BookAuthorThrough.book_id th = book_id
                           /\ BookAuthorThrough.author_id th = Author.id a)
  /\ (forall th, In th rows ->
                 In th init
                 \/ (BookAuthorThrough.book_id th = book_id
                     /\ exists a, In a authors_data
                                  /\ BookAuthorThrough.author_id th
                                     = Author.id a)).
Proof.
  revert init. induction authors_data as [|a rest IH]; intro init;
    cbn [fold_left]; cbv zeta.
  - repeat split; auto. intros a [].
  - destruct (IH (models.through_insert random_rowid book_id init a))
      as (Hkeep & Hnew & Honly).
    cbv zeta in Hkeep, Hnew, Honly.
    repeat split.
    + intros th Hth. apply Hkeep. unfold models.through_insert.
      apply in_insert_row. now right.
    + intros x [<-|Hx]; [|now apply Hnew].
      eexists. split.
      * apply Hkeep. unfold models.through_insert.
        apply in_insert_row. left. reflexivity.
      * now split.
    + intros th Hth. apply Honly in Hth.
      destruct Hth as [Hth|(Hb & x & Hx & Hid)].
      * unfold models.through_insert in Hth. apply in_insert_row in Hth.
        destruct Hth as [->|Hth]; [|now left].
        right. split; [reflexivity|]. exists a. split; [now left|reflexivity].
      * right. split; trivial. exists x. split; [now right|trivial].
Qed.

Lemma set_nonempty (l : list string) : l <> [] -> set_ l <> [].
Proof.
  destruct l as [|x l]; [congruence|]. intros _ H.
  assert (Hx : In x (set_ (x :: l))) by (apply set_In; now left).
  now rewrite H in Hx.
Qed.

(** One row: the book is appended, the authors it names are linked to
    it, and what the earlier books are linked to stays. *)
Lemma import_row_spec (row : books_csv.row) (d d' : Database) :
  imported d ->
  models.import_row set_ random_rowid row d = models.Done d' ->
  imported d' /\ user d' = user d
  /\ (forall b, In b (book d) -> Book.title b <> books_csv.title row)
  /\ (exists b, book d' = (book d ++ [b])%list /\ book_of_row d' row b)
  /\ (forall b n, In b (book d) ->
                  author_name_of d' b n <-> author_name_of d b n).
Proof.
  intros (Hgap & Hbid & Hbt & Haid & Han & Hth & Hbooks).
  unfold models.import_row. cbv zeta.
  destruct (models.get_or_create_all _ _ d) as [authors_data d1] eqn:Hg.
  apply get_or_create_all_spec in Hg.
  destruct Hg as (Hu1 & Hb1 & Ht1 & Ha1 & Hin1 & Hn1 & Hid1 & Hnm1).
  unfold models.Book_create. rewrite Hb1.
  destruct (existsb _ (book d)) eqn:Hex; [discriminate|].
  cbv zeta. intro H. injection H as <-.
  set (b := Book.Build _ _ _ _ _ _ _ _).
  destruct (new_rowid_gapless (random_rowid "book" (map Book.id (book d)))
                              (map Book.id (book d)) Hgap)
    as [Hlt Hgap'].
  assert (Hfresh : forall x, In x (book d) -> Book.id x < Book.id b).
  { intros x Hx. apply Hlt. now apply in_map. }
  assert (Htitle : forall x, In x (book d) ->
                             Book.title x <> books_csv.title row).
  { intros x Hx Ht.
    assert (Ht' : existsb (fun b0 => String.eqb (Book.title b0)
                                                (books_csv.title row))
                          (book d) = true).
    { apply existsb_exists. exists x. split; trivial.
      now apply String.eqb_eq. }
    congruence. }
  set (d' := peewee.Book_save b _).
  assert (Hbook : book d' = (book d ++ [b])%list).
  { unfold d'. cbn [book peewee.Book_save with_book models.set_authors
                         with_through].
    rewrite (insert_row_last Book.id) by exact Hfresh.
    rewrite save_row_app, save_row_fresh.
    - unfold save_row. cbn [map]. now rewrite Z.eqb_refl.
    - intros x Hx. specialize (Hfresh x Hx). lia. }
  assert (Hauthor : forall x, In x (author d) -> In x (author d'))
    by exact Ha1.
  destruct (through_rows_added
              (Book.id b) authors_data
              (filter (fun th => negb (BookAuthorThrough.book_id th
                                       =? Book.id b))
                      (book_author_through d)))
    as (Hkeep & Hnew & Honly).
  cbv zeta in Hkeep, Hnew, Honly.
  assert (Hthrough :
            book_author_through d'
            = fold_left
                (models.through_insert random_rowid (Book.id b))
                authors_data
                (filter (fun th => negb (BookAuthorThrough.book_id th
                                         =? Book.id b))
                        (book_author_through d))).
  { unfold d'. cbn [book_author_through peewee.Book_save with_book
                    models.set_authors with_through].
    now rewrite Ht1. }
  assert (Haid' : NoDup (map Author.id (author d')))
    by (apply Hid1; exact Haid).
  assert (Hold : forall x a, In x (book d) ->
                             written_by d' x a <-> written_by d x a).
  { intros x a Hx. specialize (Hfresh x Hx). unfold written_by. split.
    - intros (Ha & th & Hin & Hbk & Hau).
      rewrite Hthrough in Hin. apply Honly in Hin.
      destruct Hin as [Hin|(Hbk' & _)]; [|lia].
      apply filter_In in Hin. destruct Hin as [Hin _].
      destruct (Hth th Hin) as (a0 & Ha0 & Hid0).
      assert (a = a0) as ->.
      { apply (NoDup_key_inj Author.id (author d')); trivial; [|congruence].
        now apply Hauthor. }
      split; trivial. now exists th.
    - intros (Ha & th & Hin & Hbk & Hau). split.
      + now apply Hauthor.
      + exists th. split; [|now split].
        rewrite Hthrough. apply Hkeep, filter_In. split; trivial.
        apply negb_true_iff, Z.eqb_neq. lia. }
  assert (Hnames : forall n, author_name_of d' b n
                             <-> In n (split_comma_space
                                         (books_csv.authors row))).
  { intro n. unfold author_name_of, written_by.
    split.
    - intros (a & (Ha & th & Hin & Hbk & Hau) & Hname).
      apply set_In. rewrite <- Hn1.
      rewrite Hthrough in Hin. apply Honly in Hin.
      destruct Hin as [Hin|(_ & a0 & Ha0 & Hid0)].
      + apply filter_In in Hin. destruct Hin as [_ Hne].
        apply negb_true_iff, Z.eqb_neq in Hne. contradiction.
      + assert (a = a0) as ->.
        { apply (NoDup_key_inj Author.id (author d')); trivial;
            [now apply Hin1|congruence]. }
        rewrite <- Hname. now apply in_map.
    - intro Hn. apply (proj2 (set_In _ _)) in Hn. rewrite <- Hn1 in Hn.
      apply in_map_iff in Hn. destruct Hn as (a & Hname & Ha).
      exists a. split; [|exact Hname]. split; [now apply Hin1|].
      destruct (Hnew a Ha) as (th & Hin & Hbk & Hau).
      exists th. rewrite Hthrough. now repeat split. }
  split; [|split; [exact Hu1|split; [exact Htitle|split; [|]]]].
  - split; [|split; [|split; [|split; [|split; [|split]]]]].
    + rewrite Hbook, map_app. exact Hgap'.
    + rewrite Hbook, map_app. apply NoDup_app; trivial.
      * repeat constructor. intros [].
      * intros i Hi [<-|[]]. apply in_map_iff in Hi.
        destruct Hi as (x & Hx & Hin). specialize (Hfresh x Hin). lia.
    + rewrite Hbook, map_app. apply NoDup_app; trivial.
      * repeat constructor. intros [].
      * intros t Ht [<-|[]]. apply in_map_iff in Ht.
        destruct Ht as (x & Hx & Hin). now elim (Htitle x Hin).
    + exact Haid'.
    + apply Hnm1. exact Han.
    + intros th Hin. rewrite Hthrough in Hin. apply Honly in Hin.
      destruct Hin as [Hin|(_ & a & Ha & Hid)].
      * apply filter_In in Hin. destruct Hin as [Hin _].
        destruct (Hth th Hin) as (a & Ha & Hid).
        exists a. split; trivial. now apply Hauthor.
      * exists a. split; [now apply Hin1|now symmetry].
    + intros x Hx. rewrite Hbook in Hx. apply in_app_or in Hx.
      destruct Hx as [Hx|[<-|[]]].
      * destruct (Hbooks x Hx) as (Hby & Hat & a & Ha).
        repeat split; trivial. exists a. now apply Hold.
      * repeat split; trivial.
        destruct (split_comma_space (books_csv.authors row)) as [|n l] eqn:Hs;
          [now elim (split_comma_space_nonempty _ Hs)|].
        destruct (proj2 (Hnames n)) as (a & Ha & _);
          [try rewrite Hs; now left|].
        now exists a.
  - exists b. split; [exact Hbook|]. unfold book_of_row.
    repeat (split; [reflexivity|]). exact Hnames.
  - intros x n Hx. unfold author_name_of.
    split; intros (a & Ha & Hname); exists a; (split; [|exact Hname]);
      now apply (Hold x a Hx).
Qed.

Lemma import_row_done (row : books_csv.row) (d : Database) :
  (forall b, In b (book d) -> Book.title b <> books_csv.title row) ->
  exists d', models.import_row set_ random_rowid row d = models.Done d'.
Proof.
  intro Hfresh. unfold models.import_row. cbv zeta.
  destruct (models.get_or_create_all _ _ d) as [authors_data d1] eqn:Hg.
  apply get_or_create_all_spec in Hg. destruct Hg as (_ & Hb1 & _).
  unfold models.Book_create. rewrite Hb1.
  destruct (existsb _ (book d)) eqn:Hex; [|now eexists].
  apply existsb_exists in Hex. destruct Hex as (b & Hb & Ht).
  apply String.eqb_eq in Ht. now elim (Hfresh b Hb).
Qed.

Lemma import_rows_spec (rows : list books_csv.row) (d d' : Database) :
  imported d ->
  models.import_rows set_ random_rowid rows d = models.Done d' ->
  imported d' /\ user d' = user d
  /\ NoDup (map books_csv.title rows)
  /\ (forall b row, In b (book d) -> In row rows ->
                    Book.title b <> books_csv.title row)
  /\ (exists new, book d' = (book d ++ new)%list
                  /\ Forall2 (book_of_row d') rows new)
  /\ (forall b n, In b (book d) ->
                  author_name_of d' b n <-> author_name_of d b n).
Proof.
  revert d. induction rows as [|row rows IH]; intros d Himp;
    cbn [models.import_rows].
  - intro H. injection H as <-.
    split; [exact Himp|]. split; [reflexivity|]. split; [constructor|].
    split; [intros b row _ []|]. split; [|reflexivity].
    exists []. rewrite app_nil_r. split; [reflexivity|constructor].
  - destruct (models.import_row set_ random_rowid row d) as [d1|d1] eqn:Hrow;
      [|discriminate].
    intro Hrows.
    destruct (import_row_spec row d d1 Himp Hrow)
      as (Himp1 & Hu1 & Hfresh1 & (b & Hbook1 & Hb) & Hstable1).
    destruct (IH d1 Himp1 Hrows)
      as (Himp' & Hu' & Hnd & Hfresh & (new & Hbook' & Hnew) & Hstable).
    assert (Hb1 : In b (book d1))
      by (rewrite Hbook1; apply in_or_app; right; now left).
    split; [exact Himp'|]. split; [congruence|].
    split; [|split; [|split]].
    + cbn [map]. constructor; [|exact Hnd].
      intro Hin. apply in_map_iff in Hin. destruct Hin as (r & Hr & Hinr).
      apply (Hfresh b r Hb1 Hinr). destruct Hb as (Ht & _). congruence.
    + intros x r Hx [<-|Hr]; [now apply Hfresh1|].
      apply (Hfresh x r); trivial.
      rewrite Hbook1. apply in_or_app. now left.
    + exists (b :: new). split.
      * rewrite Hbook', Hbook1, <- app_assoc. reflexivity.
      * constructor; [|exact Hnew].
        destruct Hb as (H1 & H2 & H3 & H4 & H5 & H6 & H7 & Hn).
        repeat (split; [assumption|]).
        intro n. rewrite <- Hn. now apply Hstable.
    + intros x n Hx. rewrite <- (Hstable1 x n Hx).
      apply Hstable. rewrite Hbook1. apply in_or_app. now left.
Qed.

Lemma import_rows_done (rows : list books_csv.row) (d : Database) :
  imported d ->
  NoDup (map books_csv.title rows) ->
  (forall b row, In b (book d) -> In row rows ->
                 Book.title b <> books_csv.title row) ->
  exists d', models.import_rows set_ random_rowid rows d = models.Done d'.
Proof.
  revert d. induction rows as [|row rows IH]; intros d Himp Hnd Hfresh;
    cbn [models.import_rows]; [now eexists|].
  destruct (import_row_done row d) as [d1 Hrow].
  { intros b Hb. apply Hfresh; [exact Hb|now left]. }
  rewrite Hrow.
  destruct (import_row_spec row d d1 Himp Hrow)
    as (Himp1 & _ & _ & (b & Hbook1 & Hb) & _).
  inversion Hnd as [|? ? Hnotin Hnd']; subst.
  apply IH; trivial.
  intros x r Hx Hr. rewrite Hbook1 in Hx. apply in_app_or in Hx.
  destruct Hx as [Hx|[<-|[]]].
  - apply Hfresh; [exact Hx|now right].
  - destruct Hb as (Ht & _). rewrite Ht. intro Heq. apply Hnotin.
    rewrite Heq. now apply in_map.
Qed.

(** What [create_initial_data] starts the loop with, after
    [recreate_all_tables]. *)
Lemma create_initial_data_eq (rows : list books_csv.row) :
  models.create_initial_data set_ random_rowid rows
                             models.recreate_all_tables
  = models.import_rows set_ random_rowid rows
                       (with_user initial_users models.recreate_all_tables).
Proof. reflexivity. Qed.

Lemma imported_start :
  imported (with_user initial_users models.recreate_all_tables).
Proof.
  unfold imported. cbn.
  split; [intros i j _ _ []|].
  repeat (split; [constructor|]). split; intros ? [].
Qed.

End ImportProofs.

Lemma author_tables_step (r : route) (rq : Request) (d : Database) :
  author (database_after (handler r) rq d) = author d
  /\ book_author_through (database_after (handler r) rq d)
     = book_author_through d.
Proof.
  unfold database_after.
  destruct r; cbn [handler].
  - rewrite serve_home. destruct (peewee.User_get _ d); now split.
  - rewrite serve_borrow_books. destruct (peewee.User_get _ d); now split.
  - rewrite serve_borrow_book.
    destruct (peewee.User_get _ d); [|now split].
    cbv zeta. destruct (sqlite.fits_integer book_id); [|now split].
    destruct (peewee.Book_select book_id d); now split.
  - rewrite serve_return_book.
    destruct (peewee.User_get _ d); [|now split].
    cbv zeta. destruct (sqlite.fits_integer book_id); [|now split].
    destruct (peewee.Book_select book_id d); now split.
  - rewrite serve_logout. destruct (peewee.User_get _ d); now split.
  - now split.
  - rewrite serve_register. cbv zeta.
    repeat match goal with
           | |- context [if ?c then _ else _] => destruct c
           end; now split.
  - now split.
  - rewrite serve_login. cbv zeta.
    repeat match goal with
           | |- context [if ?c then _ else _] => destruct c
           end; try now split.
    destruct (peewee.User_get _ d); now split.
Qed.

Lemma written_by_ext (d d' : Database) (b b' : Book.t) (a : Author.t) :
  author d' = author d ->
  book_author_through d' = book_author_through d ->
  Book.id b' = Book.id b ->
  written_by d b a -> written_by d' b' a.
Proof.
  unfold written_by. intros -> -> ->. trivial.
Qed.

Lemma books_have_authors_step (r : route) (rq : Request) (d : Database) :
  (forall b, In b (book d) -> exists a, written_by d b a) ->
  forall b, In b (book (database_after (handler r) rq d)) ->
            exists a, written_by (database_after (handler r) rq d) b a.
Proof.
  intros H b Hb.
  destruct (author_tables_step r rq d) as [Ha Ht].
  destruct (book_after r rq d) as [Heq|(b' & _ & Heq)]; rewrite Heq in Hb.
  - destruct (H b Hb) as [a Hw]. exists a.
    now apply (written_by_ext d _ b b a).
  - apply (in_save_row Book.id) in Hb.
    destruct Hb as [[-> (r0 & Hr0 & Hk)]|[Hb _]].
    + destruct (H r0 Hr0) as [a Hw]. exists a.
      now apply (written_by_ext d _ r0 b' a).
    + destruct (H b Hb) as [a Hw]. exists a.
      now apply (written_by_ext d _ b b a).
Qed.

Lemma initial_users_schema (d : Database) :
  user d = initial_users -> NoDup (map User.id (user d)) /\ unique_email d.
Proof.
  intro Hu. unfold unique_email. rewrite Hu. split.
  - cbn. repeat constructor; cbn; intuition discriminate.
  - intros u1 u2 [<-|[<-|[]]] [<-|[<-|[]]] H;
      try reflexivity; discriminate H.
Qed.

(** X14: run on the tables [recreate_all_tables] has just created,
    [create_initial_data] gets through the rows of the file exactly when
    no two of them have the same title; otherwise a [Book.create] raises
    [IntegrityError]. *)
Theorem import_succeeds_iff_titles_differ
        (set_ : list string -> list string)
        (random_rowid : string -> list Z -> Z) (rows : list books_csv.row) :
  (forall l x, In x (set_ l) <-> In x l) ->
  NoDup (map books_csv.title rows)
  <-> exists d, models.create_initial_data set_ random_rowid rows
                                           models.recreate_all_tables
                = models.Done d.
Proof.
  intro set_In. rewrite create_initial_data_eq. split.
  - intro Hnd. apply (import_rows_done set_ random_rowid set_In); trivial.
    + apply imported_start.
    + intros b row [].
  - intros (d & Hd).
    now destruct (import_rows_spec set_ random_rowid set_In rows _ d
                                   imported_start Hd)
      as (_ & _ & Hnd & _).
Qed.

Lemma first_occurrences_In (l : list string) (x : string) :
  In x (first_occurrences l) <-> In x l.
Proof. apply nodup_In. Qed.

Lemma import_succeeds_iff_titles_differ_witness :
  exists d, models.create_initial_data first_occurrences sample_random_rowid
                                       sample_rows
                                       models.recreate_all_tables
            = models.Done d.
Proof.
  apply (proj1 (import_succeeds_iff_titles_differ
                  first_occurrences sample_random_rowid sample_rows
                  first_occurrences_In)).
  cbn. repeat constructor; cbn; intuition discriminate.
Defined.

(** X15: the database [create_initial_data] leaves when it returns holds
    the two administrators, logged out, with ids 1 and 2, and meets the
    constraints the handlers rely on: ids are unique in the user and book
    tables, emails are unique, titles are unique, no two authors have the
    same name, and each book has [borrowed_by] and [borrowed_at] null. *)
Theorem imported_database_is_well_formed
        (set_ : list string -> list string)
        (random_rowid : string -> list Z -> Z) (rows : list books_csv.row)
        (d : Database) :
  (forall l x, In x (set_ l) <-> In x l) ->
  models.create_initial_data set_ random_rowid rows
                             models.recreate_all_tables
  = models.Done d ->
  user d = initial_users
  /\ primary_keys d /\ unique_email d
  /\ NoDup (map Book.title (book d))
  /\ NoDup (map Author.name (author d))
  /\ (forall b, In b (book d) ->
                Book.borrowed_by b = None /\ Book.borrowed_at b = None).
Proof.
  intros set_In Hd. rewrite create_initial_data_eq in Hd.
  destruct (import_rows_spec set_ random_rowid set_In rows _ d
                             imported_start Hd)
    as ((_ & Hbid & Hbt & _ & Han & _ & Hbooks) & Hu & _).
  change (user (with_user initial_users models.recreate_all_tables))
    with initial_users in Hu.
  destruct (initial_users_schema d Hu) as [Huid Hue].
  repeat split; trivial; now destruct (Hbooks b H) as (? & ? & _).
Qed.

Lemma imported_database_is_well_formed_witness :
  exists d,
    models.create_initial_data first_occurrences sample_random_rowid
                               sample_rows models.recreate_all_tables
    = models.Done d
    /\ primary_keys d /\ unique_email d.
Proof.
  eexists. split; [vm_compute; reflexivity|].
  destruct (imported_database_is_well_formed
              first_occurrences sample_random_rowid sample_rows _
              first_occurrences_In eq_refl)
    as (_ & Hpk & Hue & _).
  now split.
Defined.

(** X16: when [create_initial_data] returns, the book table holds one
    book for each row of the file, in the order of the rows, with the
    title, publication_year, average_rating, ratings_count and image_url
    of the row, not borrowed, and linked to authors whose names are
    exactly the pieces of the row's authors text between ", "; so each
    book is linked to at least one author. *)
Theorem imported_books_and_their_authors
        (set_ : list string -> list string)
        (random_rowid : string -> list Z -> Z) (rows : list books_csv.row)
        (d : Database) :
  (forall l x, In x (set_ l) <-> In x l) ->
  models.create_initial_data set_ random_rowid rows
                             models.recreate_all_tables
  = models.Done d ->
  Forall2 (book_of_row d) rows (book d)
  /\ forall b, In b (book d) -> exists a, written_by d b a.
Proof.
  intros set_In Hd. rewrite create_initial_data_eq in Hd.
  destruct (import_rows_spec set_ random_rowid set_In rows _ d
                             imported_start Hd)
    as ((_ & _ & _ & _ & _ & _ & Hbooks) & _ & _ & _
        & (new & Hbook & Hnew) & _).
  cbn [book with_user models.recreate_all_tables app] in Hbook.
  rewrite Hbook. split; [exact Hnew|].
  intros b Hb. rewrite <- Hbook in Hb. now destruct (Hbooks b Hb) as (_ & _ & Ha).
Qed.

Lemma imported_books_and_their_authors_witness :
  exists d,
    models.create_initial_data first_occurrences sample_random_rowid
                               sample_rows models.recreate_all_tables
    = models.Done d
    /\ Forall2 (book_of_row d) sample_rows (book d).
Proof.
  eexists. split; [vm_compute; reflexivity|].
  apply (imported_books_and_their_authors
           first_occurrences sample_random_rowid sample_rows _
           first_occurrences_In eq_refl).
Defined.

(** X17: in every database the application reaches from the import by
    serving requests, ids and emails are unique, each book has
    [borrowed_by] null exactly when [borrowed_at] is null, and each book
    is linked to an author; so the list of [borrow_books] shown to an
    authenticated caller holds every book that the caller has not
    borrowed. *)
Theorem library_reached_from_the_import
        (set_ : list string -> list string)
        (random_rowid : string -> list Z -> Z) (rows : list books_csv.row)
        (d : Database) (reqs : list (route * Request)) :
  (forall l x, In x (set_ l) <-> In x l) ->
  models.create_initial_data set_ random_rowid rows
                             models.recreate_all_tables
  = models.Done d ->
  primary_keys (serve_all reqs d) /\ unique_email (serve_all reqs d)
  /\ books_consistent (serve_all reqs d)
  /\ (forall b, In b (book (serve_all reqs d)) ->
                exists a, written_by (serve_all reqs d) b a)
  /\ (forall rq caller books cs d2 b,
         serve server.borrow_books rq (serve_all reqs d)
         = (Return (borrow_books_tpl books caller), cs, d2) ->
         In b (book (serve_all reqs d)) ->
         Book.borrowed_by b <> Some (User.id caller) ->
         exists names, In (b, names) books).
Proof.
  intros set_In Hd. rewrite create_initial_data_eq in Hd.
  destruct (import_rows_spec set_ random_rowid set_In rows _ d
                             imported_start Hd)
    as ((_ & Hbid & _ & _ & _ & _ & Hbooks) & Hu & _).
  change (user (with_user initial_users models.recreate_all_tables))
    with initial_users in Hu.
  destruct (initial_users_schema d Hu) as [Huid Hue].
  assert (Hall : primary_keys (serve_all reqs d)
                 /\ unique_email (serve_all reqs d)
                 /\ books_consistent (serve_all reqs d)
                 /\ (forall b, In b (book (serve_all reqs d)) ->
                               exists a, written_by (serve_all reqs d) b a)).
  { assert (H0 : primary_keys d /\ unique_email d /\ books_consistent d
                 /\ (forall b, In b (book d) -> exists a, written_by d b a)).
    { split; [now split|]. split; [exact Hue|]. split.
      - intros b Hb. destruct (Hbooks b Hb) as (Hby & Hat & _).
        unfold consistent. now rewrite Hby, Hat.
      - intros b Hb. now destruct (Hbooks b Hb) as (_ & _ & Ha). }
    clear - H0. revert d H0.
    induction reqs as [|[r rq] reqs IH]; intros d H0; [exact H0|].
    cbn [serve_all]. apply IH.
    destruct H0 as (Hpk & Hue & Hc & Ha).
    destruct (schema_step r rq d Hpk Hue) as [Hpk' Hue'].
    split; [exact Hpk'|]. split; [exact Hue'|]. split.
    - now apply books_consistent_step.
    - now apply books_have_authors_step. }
  destruct Hall as (Hpk & Hue' & Hc & Ha).
  split; [exact Hpk|]. split; [exact Hue'|]. split; [exact Hc|].
  split; [exact Ha|].
  intros rq caller books cs d2 b. rewrite serve_borrow_books.
  destruct (peewee.User_get _ (serve_all reqs d)) as [u|]; [|discriminate].
  cbv zeta. intro H. injection H as Hbooks' Hcaller _ _.
  subst books caller. intros Hb Hne.
  destruct (Ha b Hb) as [a Hw].
  eexists. apply filter_In. split.
  - apply in_order_by_title, in_group_by_id.
    split; [exact Hb|]. split; [|reflexivity].
    apply joined_author_names_nonempty. exists a. exact Hw.
  - cbn [fst]. now apply borrowed_by_ne_iff.
Qed.

Lemma library_reached_from_the_import_witness :
  exists d,
    models.create_initial_data first_occurrences sample_random_rowid
                               sample_rows models.recreate_all_tables
    = models.Done d
    /\ books_consistent (serve_all [(Login, mustafa_logs_in);
                                    (BorrowBook 1,
                                     sample.session sample.mustafa 100
                                                    sample.jan15)] d).
Proof.
  eexists. split; [vm_compute; reflexivity|].
  apply (library_reached_from_the_import
           first_occurrences sample_random_rowid sample_rows _
           [(Login, mustafa_logs_in);
            (BorrowBook 1, sample.session sample.mustafa 100 sample.jan15)]
           first_occurrences_In eq_refl).
Defined.
